(** * imessage.py: the message reconciliation pipeline

    A shallow embedding of [src/imessage.py]: the pandas frame is a list of
    labelled rows, every stage is a function on such lists, and the stages
    with a statement that can raise (the positional assignment of
    [update_reactions], the column assignment of [update_text]) return a
    [Result]. *)

From Stdlib Require Import List Bool ZArith NArith Lia Permutation.
From Stdlib Require Import Sorting.Sorted.
From Stdlib Require Import Strings.String Strings.Ascii Strings.Byte.
Import ListNotations.
Open Scope Z_scope.

(** ** Python values *)

(** A Python [str] is a sequence of Unicode code points. *)
Definition str := list N.

Definition s (x : string) : str :=
  List.map (fun c => N_of_ascii c) (list_ascii_of_string x).

Fixpoint str_eqb (x y : str) : bool :=
  match x, y with
  | [], [] => true
  | a :: x', b :: y' => N.eqb a b && str_eqb x' y'
  | _, _ => false
  end.

(** A cell that holds a [str] or [None]. *)
Definition obj_eqb (x y : option str) : bool :=
  match x, y with
  | Some a, Some b => str_eqb a b
  | None, None => true
  | _, _ => false
  end.

(** The [attributedBody] cell: a BLOB comes back from sqlite3 as [bytes],
    a NULL as [None]; a TEXT value would be a [str]. *)
Inductive Body : Type :=
| BBytes (bs : list byte)
| BStr (v : str)
| BNone.

Inductive PyError : Type :=
| ValueError.

Inductive Result (A : Type) : Type :=
| Ok (a : A)
| Raise (e : PyError).

Arguments Ok {A} a.
Arguments Raise {A} e.

(** ** The frame *)

(** One row of the query of [load_data]. *)
Record Row : Type := mkRow {
  id : Z;
  guid : str;
  thread_guid : option str;
  date : str;
  body : Body;
  text : option str;
  is_from_me : Z;
  is_sms : Z;
  reaction_guid : option str;
  reaction_type : Z
}.

(** A frame is the list of its rows in order, each with its index label.
    [pd.read_sql_query] labels the rows 0, 1, 2, ... *)
Definition Frame (R : Type) : Type := list (Z * R).

Definition label {R} (e : Z * R) : Z := fst e.
Definition row {R} (e : Z * R) : R := snd e.

(** [df[c]]: a column, as the list of its cells. *)
Definition col {R A} (f : R -> A) (df : Frame R) : list A :=
  List.map (fun e => f (row e)) df.

(** [df[mask]] for a boolean mask computed from [df] itself. *)
Fixpoint select {A} (mask : list bool) (l : list A) : list A :=
  match mask, l with
  | m :: mask', x :: l' => if m then x :: select mask' l' else select mask' l'
  | _, _ => []
  end.

(** [m1 & m2] and [~m]. *)
Fixpoint mask_and (m1 m2 : list bool) : list bool :=
  match m1, m2 with
  | a :: m1', b :: m2' => (a && b) :: mask_and m1' m2'
  | _, _ => []
  end.

Definition mask_not (m : list bool) : list bool := List.map negb m.

(** [x in values], cell by cell this is [Series.isin]. *)
Definition isin1 (x : option str) (values : list (option str)) : bool :=
  existsb (obj_eqb x) values.

Definition isin (cells values : list (option str)) : list bool :=
  List.map (fun x => isin1 x values) cells.

(** A [str] column seen as a column of objects. *)
Definition objs (c : list str) : list (option str) := List.map (@Some str) c.

Definition notna (cells : list (option str)) : list bool :=
  List.map (fun x => match x with Some _ => true | None => false end) cells.

(** [Series.duplicated()], with its default [keep='first']: every occurrence
    of a value but the first one is marked. *)
Fixpoint duplicated_from (seen : list str) (c : list str) : list bool :=
  match c with
  | [] => []
  | x :: c' => existsb (str_eqb x) seen :: duplicated_from (x :: seen) c'
  end.

Definition duplicated (c : list str) : list bool := duplicated_from [] c.

(** [df.drop(labels)]: every row that carries one of the labels goes. The
    labels passed by [drop_duplicates] are labels of [df], so the KeyError
    of an unknown label cannot happen. *)
Definition drop {R} (labels : list Z) (df : Frame R) : Frame R :=
  List.filter (fun e => negb (existsb (Z.eqb (label e)) labels)) df.

(** ** Deduplicator *)

Definition duplicate_guids (df : Frame Row) : list Z :=
  List.map label
    (select (mask_and (duplicated (col guid df))
                      (List.map (fun v => v =? 1) (col is_sms df)))
            df).

Definition drop_duplicates (df : Frame Row) : Frame Row :=
  drop (duplicate_guids df) df.

(** ** Reaction Resolver *)

(** [reactions]: the rows whose [reaction_guid] is not null. The source keeps
    three of their columns; the rows are kept whole here and only those three
    columns are read. *)
Definition reactions (df : Frame Row) : Frame Row :=
  select (notna (col reaction_guid df)) df.

Definition to_remove (df : Frame Row) : list str :=
  col guid (reactions df).

Definition self_reactions (df : Frame Row) : Frame Row :=
  select
    (mask_and
       (isin (objs (col guid df))
             (col reaction_guid
                (select (mask_and (List.map (fun v => v >? 1000) (col reaction_type df))
                                  (List.map (fun v => v =? 1) (col is_from_me df)))
                        df)))
       (List.map (fun v => v =? 1) (col is_from_me df)))
    df.

Definition out_reactions (df : Frame Row) : Frame Row :=
  let r := reactions df in
  select
    (mask_and
       (mask_and (List.map (fun v => v >=? 2000) (col reaction_type r))
                 (List.map (fun v => v <? 3000) (col reaction_type r)))
       (mask_not (isin (col reaction_guid r) (objs (col guid (self_reactions df))))))
    r.

(** The two frames the source calls [a] and [b]. *)
Definition frame_a (df : Frame Row) : Frame Row :=
  select (isin (objs (col guid df)) (objs (col guid (out_reactions df)))) df.

Definition frame_b (df : Frame Row) : Frame Row :=
  select (isin (objs (col guid df)) (col reaction_guid (out_reactions df))) df.

Definition text_message_reactions (df : Frame Row) : Frame Row :=
  let a := frame_a df in
  select (mask_not (isin (col reaction_guid a) (objs (col guid (frame_b df))))) a.

(** [main_reactions], before the projection on its two columns. *)
Definition main_reactions (df : Frame Row) : Frame Row :=
  let o := out_reactions df in
  select (mask_not (isin (objs (col guid o))
                         (objs (col guid (text_message_reactions df))))) o.

Definition set_reaction_type (v : Z) (r : Row) : Row :=
  mkRow (id r) (guid r) (thread_guid r) (date r) (body r) (text r)
        (is_from_me r) (is_sms r) (reaction_guid r) v.

(** [df.loc[mask, "reaction_type"] = values] with [values] a numpy array of
    the length of the selection: the k-th selected row takes the k-th value. *)
Fixpoint assign_reaction_type (mask : list bool) (values : list Z)
         (df : Frame Row) : Frame Row :=
  match mask, df with
  | m :: mask', e :: df' =>
      if m then
        match values with
        | v :: values' =>
            (label e, set_reaction_type v (row e))
              :: assign_reaction_type mask' values' df'
        | [] => e :: assign_reaction_type mask' [] df'
        end
      else e :: assign_reaction_type mask' values df'
  | _, _ => df
  end.

Definition count_true (mask : list bool) : nat :=
  List.length (List.filter (fun m => m) mask).

(** The assignment raises ValueError ("Must have equal len keys and value
    when setting with an iterable") when the array and the selection differ
    in length. *)
Definition loc_set_reaction_type (mask : list bool) (values : list Z)
           (df : Frame Row) : Result (Frame Row) :=
  if Nat.eqb (count_true mask) (List.length values)
  then Ok (assign_reaction_type mask values df)
  else Raise ValueError.

Definition apply_mask (df : Frame Row) : list bool :=
  isin (objs (col guid df)) (col reaction_guid (main_reactions df)).

Definition apply_reactions (df : Frame Row) : Result (Frame Row) :=
  loc_set_reaction_type (apply_mask df)
                        (col reaction_type (main_reactions df)) df.

(** The last statement: [df[~df["guid"].isin(to_remove)]]. *)
Definition remove_reactions (removed : list str) (df : Frame Row) : Frame Row :=
  select (mask_not (isin (objs (col guid df)) (objs removed))) df.

Definition update_reactions (df : Frame Row) : Result (Frame Row) :=
  let removed := to_remove df in
  match apply_reactions df with
  | Ok df' => Ok (remove_reactions removed df')
  | Raise e => Raise e
  end.

(** ** Text Recoverer *)

(** *** The [str] methods it uses *)

(** The code points [str.strip()] removes. *)
Definition isspace (c : N) : bool :=
  (((9 <=? c) && (c <=? 13)) || ((28 <=? c) && (c <=? 32))
   || (c =? 133) || (c =? 160) || (c =? 5760)
   || ((8192 <=? c) && (c <=? 8202))
   || (c =? 8232) || (c =? 8233) || (c =? 8239) || (c =? 8287)
   || (c =? 12288))%N.

Fixpoint lstrip (x : str) : str :=
  match x with
  | c :: x' => if isspace c then lstrip x' else x
  | [] => []
  end.

Definition rstrip (x : str) : str := rev (lstrip (rev x)).

Definition strip (x : str) : str := rstrip (lstrip x).

Fixpoint starts_with (sep x : str) : bool :=
  match sep, x with
  | [], _ => true
  | a :: sep', b :: x' => N.eqb a b && starts_with sep' x'
  | _ :: _, [] => false
  end.

(** [sub in x]. *)
Fixpoint contains (sub x : str) : bool :=
  starts_with sub x
  || match x with
     | [] => false
     | _ :: x' => contains sub x'
     end.

(** The text before the leftmost occurrence of [sep] and the text after it. *)
Fixpoint split_first (sep x : str) : option (str * str) :=
  if starts_with sep x then Some ([], skipn (List.length sep) x)
  else match x with
       | [] => None
       | c :: x' =>
           match split_first sep x' with
           | Some (p, r) => Some (c :: p, r)
           | None => None
           end
       end.

Fixpoint split_fuel (fuel : nat) (sep x : str) : list str :=
  match fuel with
  | O => [x]
  | S fuel' =>
      match split_first sep x with
      | Some (p, r) => p :: split_fuel fuel' sep r
      | None => [x]
      end
  end.

(** [x.split(sep)] for a separator that is not empty: every occurrence
    consumes a character, so [len(x)] rounds are enough. *)
Definition split (sep x : str) : list str :=
  split_fuel (List.length x) sep x.

(** [x[6:-12]]. *)
Definition slice_6_m12 (x : str) : str :=
  firstn (List.length x - 12 - 6) (skipn 6 x).

Definition NSNumber : str := s "NSNumber".
Definition NSString : str := s "NSString".
Definition NSDictionary : str := s "NSDictionary".

(** The rows of the frame [update_text] returns: the [body] column is
    dropped. *)
Record TextRow : Type := mkTextRow {
  t_id : Z;
  t_guid : str;
  t_thread_guid : option str;
  t_date : str;
  t_text : option str;
  t_is_from_me : Z;
  t_is_sms : Z;
  t_reaction_guid : option str;
  t_reaction_type : Z
}.

Section TextRecoverer.

(** [bytes.decode("utf-8", errors="replace")], the codec of the Python
    runtime. *)
Variable decode_utf8_replace : list byte -> str.

(** The [try] block followed by [str(...)]: [bytes] are decoded; a [str]
    and [None] have no [decode], the AttributeError is swallowed, and
    [str] gives the string itself and ["None"]. *)
Definition body_str (b : Body) : str :=
  match b with
  | BBytes bs => decode_utf8_replace bs
  | BStr v => v
  | BNone => s "None"
  end.

(** [if msg_text:] *)
Definition truthy (t : option str) : option str :=
  match t with
  | Some (c :: x) => Some (c :: x)
  | _ => None
  end.

Definition parse_body (r : Row) : option str :=
  match truthy (text r) with
  | Some msg_text => Some (strip msg_text)
  | None =>
      let b := body_str (body r) in
      if contains NSNumber b then
        let b := nth 0 (split NSNumber b) [] in
        if contains NSString b then
          let b := nth 1 (split NSString b) [] in
          if contains NSDictionary b then
            let b := nth 0 (split NSDictionary b) [] in
            let b := slice_6_m12 b in
            Some (strip b)
          else None
        else None
      else None
  end.

(** One row of the result: [text] is what [parse_body] returns for the row,
    [body] is dropped, the other cells are kept. *)
Definition with_parsed_text (e : Z * Row) : Z * TextRow :=
  let r := row e in
  (label e,
   mkTextRow (id r) (guid r) (thread_guid r) (date r) (parse_body r)
             (is_from_me r) (is_sms r) (reaction_guid r) (reaction_type r)).

(** [df["text"] = df.apply(parse_body, axis=1)] and then
    [df.drop(columns=["body"])]. On a frame with rows [DataFrame.apply]
    calls [parse_body] once per row and gives the column of the results. On
    a frame without rows it takes its empty-frame path and gives back a
    frame, not a column; the assignment of that frame to the one column
    [text] raises ValueError ("Columns must be same length as key"). *)
Definition update_text (df : Frame Row) : Result (Frame TextRow) :=
  match df with
  | [] => Raise ValueError
  | _ :: _ => Ok (List.map with_parsed_text df)
  end.

End TextRecoverer.

(** ** Thread Selector *)

Section ThreadSelector.

(** The function reads two columns only, whatever the other columns of the
    frame are. *)
Variable R : Type.
Variable guid_of : R -> str.
Variable thread_guid_of : R -> option str.

(** [df[c] == v] *)
Definition eq_mask (cells : list (option str)) (v : str) : list bool :=
  List.map (fun x => obj_eqb x (Some v)) cells.

(** [pd.concat]: the rows of the frames one after the other, labels kept. *)
Definition pd_concat (frames : list (Frame R)) : Frame R :=
  List.concat frames.

Definition get_thread_messages (df : Frame R) (thread : str) : Frame R :=
  pd_concat
    [ select (eq_mask (objs (col guid_of df)) thread) df;
      select (eq_mask (col thread_guid_of df) thread) df ].

End ThreadSelector.

Arguments pd_concat {R} frames.
Arguments get_thread_messages {R} guid_of thread_guid_of df thread.

(** ** The pipeline of [load_data] *)

Section Loader.

(** The codec, as for [update_text]. *)
Variable decode_utf8_replace : list byte -> str.

(** [update_dates] hands the [date] column to [pd.to_datetime], which is not
    modelled: the stage is any function from the frame [update_text] returns
    to a frame with parsed dates, or to the ValueError of a date that does
    not parse. *)
Variable DateRow : Type.
Variable update_dates : Frame TextRow -> Result (Frame DateRow).

(** [reduce(lambda df, func: func(df), prepare_steps, res)] on the result
    [res] of the query: the four stages in order, an exception of one of
    them ending the run. *)
Definition prepare (res : Frame Row) : Result (Frame DateRow) :=
  match update_reactions (drop_duplicates res) with
  | Ok df =>
      match update_text decode_utf8_replace df with
      | Ok df' => update_dates df'
      | Raise e => Raise e
      end
  | Raise e => Raise e
  end.

End Loader.

Arguments prepare decode_utf8_replace {DateRow} update_dates res.

(** * Definitions for the statements *)

(** The rows a thread is made of. *)
Definition is_root {R} (guid_of : R -> str) (thread : str) (e : Z * R) : bool :=
  obj_eqb (Some (guid_of (row e))) (Some thread).

Definition is_reply {R} (thread_guid_of : R -> option str) (thread : str)
           (e : Z * R) : bool :=
  obj_eqb (thread_guid_of (row e)) (Some thread).

(** The labels [drop_duplicates] collects, in one pass: [seen] holds the
    guids of the rows already passed. *)
Fixpoint dup_labels (seen : list str) (df : Frame Row) : list Z :=
  match df with
  | [] => []
  | e :: df' =>
      if existsb (str_eqb (guid (row e))) seen && (is_sms (row e) =? 1)
      then label e :: dup_labels (guid (row e) :: seen) df'
      else dup_labels (guid (row e) :: seen) df'
  end.

(** The rows that stay when every label names one row. *)
Fixpoint dedup_from (seen : list str) (df : Frame Row) : Frame Row :=
  match df with
  | [] => []
  | e :: df' =>
      if existsb (str_eqb (guid (row e))) seen && (is_sms (row e) =? 1)
      then dedup_from (guid (row e) :: seen) df'
      else e :: dedup_from (guid (row e) :: seen) df'
  end.

(** The frames of the scenarios: a message row with the given guid and
    channel flag. *)
Definition message (g : str) (sms : Z) : Row :=
  mkRow 1 g None (s "2023-05-01 10:00:00") (BBytes []) (Some (s "hi"))
        0 sms None 0.

Definition two_native : Frame Row :=
  [(0, message (s "A") 0); (1, message (s "A") 0)].

Definition two_sms : Frame Row :=
  [(0, message (s "A") 1); (1, message (s "A") 1)].

(** In [df] every row that carries the guid of an earlier row is an SMS row. *)
Definition repeats_are_sms (df : Frame Row) : Prop :=
  forall pre e post,
    df = pre ++ e :: post ->
    In (guid (row e)) (col guid pre) -> is_sms (row e) = 1.

(** A candidate of the Reaction Resolver: a row with a [reaction_guid]. *)
Definition is_reaction (e : Z * Row) : bool :=
  match reaction_guid (row e) with Some _ => true | None => false end.

(** The pair of the spec's scenario: a message and a reaction to it that the
    other side sent. *)
Definition pair_message : Row :=
  mkRow 1 (s "A") None (s "2023-05-01 10:00:00") (BBytes []) (Some (s "hi"))
        1 0 None 0.

Definition pair_reaction : Row :=
  mkRow 2 (s "B") None (s "2023-05-01 10:00:05") (BBytes []) None
        0 0 (Some (s "A")) 2000.

Definition pair : Frame Row := [(0, pair_message); (1, pair_reaction)].

(** C3 in the spec's words: the outbound reactions whose [reaction_guid] is
    absent from the guids of [b] are the main reactions. *)
Definition main_reactions_as_specified (df : Frame Row) : Frame Row :=
  List.filter
    (fun e => negb (isin1 (reaction_guid (row e)) (objs (col guid (frame_b df)))))
    (out_reactions df).

(** A row with its [reaction_type] blanked: what the assignment cannot
    change. *)
Definition besides_reaction_type (e : Z * Row) : Z * Row :=
  (label e, set_reaction_type 0 (row e)).

(** Two messages and, after them, a reaction to the second and then a
    reaction to the first. *)
Definition crossed : Frame Row :=
  [ (0, mkRow 1 (s "A") None (s "2023-05-01 10:00:00") (BBytes []) (Some (s "hi")) 1 0 None 0);
    (1, mkRow 2 (s "B") None (s "2023-05-01 10:01:00") (BBytes []) (Some (s "yo")) 1 0 None 0);
    (2, mkRow 3 (s "R1") None (s "2023-05-01 10:02:00") (BBytes []) None 0 0 (Some (s "B")) 2001);
    (3, mkRow 4 (s "R2") None (s "2023-05-01 10:03:00") (BBytes []) None 0 0 (Some (s "A")) 2000) ].

(** One message and two reactions to it. *)
Definition twice_reacted : Frame Row :=
  [ (0, mkRow 1 (s "A") None (s "2023-05-01 10:00:00") (BBytes []) (Some (s "hi")) 1 0 None 0);
    (1, mkRow 2 (s "R1") None (s "2023-05-01 10:02:00") (BBytes []) None 0 0 (Some (s "A")) 2000);
    (2, mkRow 3 (s "R2") None (s "2023-05-01 10:03:00") (BBytes []) None 0 0 (Some (s "A")) 2001) ].

(** The rows the assignment selects: their guid is the [reaction_guid] of a
    main reaction. *)
Definition is_target (df : Frame Row) (e : Z * Row) : bool :=
  isin1 (Some (guid (row e))) (col reaction_guid (main_reactions df)).

(** The first code point, when there is one, is not whitespace. *)
Definition no_leading_space (x : str) : bool :=
  match x with
  | c :: _ => negb (isspace c)
  | [] => true
  end.

(** No whitespace at either end. *)
Definition trimmed (x : str) : bool :=
  no_leading_space x && no_leading_space (rev x).


(** The same without the demand that the string is not empty. *)
Definition text_trimmed_or_absent (e : Z * TextRow) : Prop :=
  match t_text (row e) with
  | Some x => trimmed x = true
  | None => True
  end.


(** The scenario of the spec: a root, two replies and a message of no
    thread. *)
Definition text_row (g : str) (th : option str) : TextRow :=
  mkTextRow 1 g th (s "2023-05-01 10:00:00") (Some (s "hi")) 0 0 None 0.

Definition threaded : Frame TextRow :=
  [ (0, text_row (s "T") None);
    (1, text_row (s "R1") (Some (s "T")));
    (2, text_row (s "R2") (Some (s "T")));
    (3, text_row (s "X") None) ].

(** A row that is not an SMS row. *)
Definition is_native (e : Z * Row) : bool := negb (is_sms (row e) =? 1).

(** The rows the last statement of [update_reactions] keeps: their guid is
    the guid of no candidate of [df]. *)
Definition not_removed (df : Frame Row) (e : Z * Row) : bool :=
  negb (existsb (str_eqb (guid (row e))) (col guid (List.filter is_reaction df))).

(** A reaction code of the range the resolver applies. *)
Definition applied_code (v : Z) : Prop := 2000 <= v < 3000.

(** My message "A", my own reaction to it and a reaction of the other side
    to it; then a message "D" of the other side and my reaction to it. *)
Definition self_reacted : Frame Row :=
  [ (0, pair_message);
    (1, mkRow 2 (s "B") None (s "2023-05-01 10:00:05") (BBytes []) None
              1 0 (Some (s "A")) 2001);
    (2, mkRow 3 (s "C") None (s "2023-05-01 10:00:09") (BBytes []) None
              0 0 (Some (s "A")) 2000);
    (3, mkRow 4 (s "D") None (s "2023-05-01 10:01:00") (BBytes []) (Some (s "yo"))
              0 0 None 0);
    (4, mkRow 5 (s "E") None (s "2023-05-01 10:02:00") (BBytes []) None
              1 0 (Some (s "D")) 2002) ].

(** A message, a sticker on it and the retraction of a reaction to it. *)
Definition retracted : Frame Row :=
  [ (0, pair_message);
    (1, mkRow 2 (s "B") None (s "2023-05-01 10:00:05") (BBytes []) None
              0 0 (Some (s "A")) 1000);
    (2, mkRow 3 (s "C") None (s "2023-05-01 10:00:09") (BBytes []) None
              0 0 (Some (s "A")) 3001) ].

(** The order of the query's [ORDER BY date ASC] on the timestamps as text:
    code point by code point. *)
Fixpoint str_leb (x y : str) : bool :=
  match x, y with
  | [], _ => true
  | _ :: _, [] => false
  | a :: x', b :: y' => (a <? b)%N || ((a =? b)%N && str_leb x' y')
  end.

(** * Properties *)

(** ** Masks and selections *)

Lemma str_eqb_eq (x y : str) : str_eqb x y = true <-> x = y.
Proof.
  revert y; induction x as [|a x IH]; intros [|b y]; simpl;
    try (split; [discriminate | congruence]); try tauto.
  rewrite andb_true_iff, N.eqb_eq, IH.
  split; [intros [-> ->]; reflexivity | intros E; inversion E; auto].
Qed.

Lemma str_eqb_refl (x : str) : str_eqb x x = true.
Proof. apply str_eqb_eq; reflexivity. Qed.

Lemma seen_In (x : str) (seen : list str) :
  existsb (str_eqb x) seen = true <-> In x seen.
Proof.
  rewrite existsb_exists; split.
  - intros (y & Hy & E); apply str_eqb_eq in E; subst; assumption.
  - intros H; exists x; split; [assumption | apply str_eqb_refl].
Qed.

Lemma label_In (l : Z) (labels : list Z) :
  existsb (Z.eqb l) labels = true <-> In l labels.
Proof.
  rewrite existsb_exists; split.
  - intros (y & Hy & E); apply Z.eqb_eq in E; subst; assumption.
  - intros H; exists l; split; [assumption | apply Z.eqb_refl].
Qed.

Lemma isin1_In (x : str) (values : list (option str)) :
  isin1 (Some x) values = true <-> In (Some x) values.
Proof.
  unfold isin1; rewrite existsb_exists; split.
  - intros ([y|] & Hy & E); simpl in E; [|discriminate].
    apply str_eqb_eq in E; subst; assumption.
  - intros H; exists (Some x); split; [assumption | apply str_eqb_refl].
Qed.

Lemma isin1_objs (x : option str) (c : list str) :
  isin1 x (objs c) = true <-> exists g, x = Some g /\ In g c.
Proof.
  unfold isin1, objs; rewrite existsb_exists; split.
  - intros (y & Hy & E). apply in_map_iff in Hy as (g & <- & Hg).
    destruct x as [x|]; simpl in E; [|discriminate].
    apply str_eqb_eq in E; subst; eauto.
  - intros (g & -> & Hg); exists (Some g); split;
      [apply in_map; assumption | apply str_eqb_refl].
Qed.

Lemma select_map {A} (f : A -> bool) (l : list A) :
  select (List.map f l) l = List.filter f l.
Proof.
  induction l as [|x l IH]; simpl; [reflexivity|].
  rewrite IH; reflexivity.
Qed.

Lemma mask_and_map {A} (f g : A -> bool) (l : list A) :
  mask_and (List.map f l) (List.map g l) = List.map (fun x => f x && g x) l.
Proof. induction l as [|x l IH]; simpl; [|rewrite IH]; reflexivity. Qed.

Lemma mask_not_map {A} (f : A -> bool) (l : list A) :
  mask_not (List.map f l) = List.map (fun x => negb (f x)) l.
Proof. unfold mask_not; apply map_map. Qed.

Lemma map_col {R A B} (f : R -> A) (g : A -> B) (df : Frame R) :
  List.map g (col f df) = List.map (fun e => g (f (row e))) df.
Proof. unfold col; apply map_map. Qed.

Lemma isin_col {R} (f : R -> option str) (values : list (option str)) (df : Frame R) :
  isin (col f df) values = List.map (fun e => isin1 (f (row e)) values) df.
Proof. unfold isin; apply (map_col f (fun x => isin1 x values)). Qed.

Lemma isin_objs_col {R} (f : R -> str) (values : list (option str)) (df : Frame R) :
  isin (objs (col f df)) values
  = List.map (fun e => isin1 (Some (f (row e))) values) df.
Proof. unfold isin, objs, col; rewrite !map_map; reflexivity. Qed.

Lemma notna_col {R} (f : R -> option str) (df : Frame R) :
  notna (col f df)
  = List.map (fun e => match f (row e) with Some _ => true | None => false end) df.
Proof. unfold notna, col; rewrite map_map; reflexivity. Qed.

(** ** Deduplicator *)

Lemma duplicate_guids_from (seen : list str) (df : Frame Row) :
  List.map label
    (select (mask_and (duplicated_from seen (col guid df))
                      (List.map (fun v => v =? 1) (col is_sms df))) df)
  = dup_labels seen df.
Proof.
  revert seen; induction df as [|e df IH]; intros seen; simpl; [reflexivity|].
  destruct (existsb _ seen && _); simpl; rewrite IH; reflexivity.
Qed.

Lemma duplicate_guids_eq (df : Frame Row) :
  duplicate_guids df = dup_labels [] df.
Proof. apply duplicate_guids_from. Qed.

Lemma dup_labels_incl (seen : list str) (df : Frame Row) :
  incl (dup_labels seen df) (List.map label df).
Proof.
  revert seen; induction df as [|e df IH]; intros seen; simpl.
  - apply incl_refl.
  - destruct (existsb _ seen && _).
    + apply incl_cons; [left; reflexivity | apply incl_tl, IH].
    + apply incl_tl, IH.
Qed.

Lemma drop_nil {R} (df : Frame R) : drop [] df = df.
Proof.
  unfold drop; induction df as [|e df IH]; simpl; [reflexivity|].
  f_equal; exact IH.
Qed.

Lemma drop_cons_in {R} (D : list Z) (e : Z * R) (df : Frame R) :
  In (label e) D -> drop D (e :: df) = drop D df.
Proof.
  intros H; unfold drop; simpl.
  apply label_In in H; rewrite H; reflexivity.
Qed.

Lemma drop_cons_notin {R} (D : list Z) (e : Z * R) (df : Frame R) :
  ~ In (label e) D -> drop D (e :: df) = e :: drop D df.
Proof.
  intros H; unfold drop; simpl.
  destruct (existsb (Z.eqb (label e)) D) eqn:E; [|reflexivity].
  apply label_In in E; contradiction.
Qed.

(** With labels that name one row each, [drop_duplicates] removes exactly
    the SMS rows that repeat the guid of an earlier row. *)
Lemma drop_dup_labels (df : Frame Row) :
  forall seen extra,
    NoDup (List.map label df) ->
    (forall l, In l extra -> ~ In l (List.map label df)) ->
    drop (extra ++ dup_labels seen df) df = dedup_from seen df.
Proof.
  induction df as [|e df IH]; intros seen extra ND Hex; [reflexivity|].
  simpl in ND; apply NoDup_cons_iff in ND as [Hl ND].
  cbn [dup_labels dedup_from].
  destruct (existsb _ seen && _) eqn:C.
  - rewrite drop_cons_in by (apply in_or_app; right; left; reflexivity).
    change (extra ++ label e :: dup_labels (guid (row e) :: seen) df)
      with (extra ++ [label e] ++ dup_labels (guid (row e) :: seen) df).
    rewrite app_assoc. apply IH; [assumption|].
    intros l Hin Hl'. apply in_app_or in Hin as [Hin|[<-|[]]].
    + apply (Hex l Hin); right; assumption.
    + contradiction.
  - rewrite drop_cons_notin.
    + f_equal. apply IH; [assumption|].
      intros l Hin Hl'; apply (Hex l Hin); right; assumption.
    + intros Hin. apply in_app_or in Hin as [Hin|Hin].
      * apply (Hex _ Hin); left; reflexivity.
      * apply dup_labels_incl in Hin; contradiction.
Qed.

Lemma drop_duplicates_unique_labels (df : Frame Row) :
  NoDup (List.map label df) -> drop_duplicates df = dedup_from [] df.
Proof.
  intros ND. unfold drop_duplicates. rewrite duplicate_guids_eq.
  apply (drop_dup_labels df [] [] ND).
  intros l [].
Qed.

Lemma dup_labels_after_drop (df : Frame Row) :
  forall seen seen' D,
    incl seen' seen ->
    incl (dup_labels seen df) D ->
    dup_labels seen' (drop D df) = [].
Proof.
  induction df as [|e df IH]; intros seen seen' D Hs HD; [reflexivity|].
  cbn [dup_labels] in HD.
  assert (HD' : incl (dup_labels (guid (row e) :: seen) df) D).
  { destruct (existsb _ seen && _); [apply incl_cons_inv in HD as [_ HD]|];
      exact HD. }
  assert (Hs' : incl (guid (row e) :: seen') (guid (row e) :: seen)).
  { apply incl_cons; [left; reflexivity | apply incl_tl, Hs]. }
  destruct (in_dec Z.eq_dec (label e) D) as [Hin|Hout].
  - rewrite drop_cons_in by assumption.
    apply IH with (seen := guid (row e) :: seen);
      [apply incl_tran with (m := guid (row e) :: seen');
         [apply incl_tl, incl_refl | exact Hs'] | exact HD'].
  - rewrite drop_cons_notin by assumption. cbn [dup_labels].
    destruct (existsb (str_eqb (guid (row e))) seen' && (is_sms (row e) =? 1)) eqn:C.
    + exfalso. apply andb_true_iff in C as [C1 C2].
      apply seen_In in C1. apply Hs, seen_In in C1.
      rewrite C1, C2 in HD. apply Hout, HD; left; reflexivity.
    + apply IH with (seen := guid (row e) :: seen); assumption.
Qed.

Lemma dedup_guids (df : Frame Row) :
  forall seen D,
    (forall pre e post,
        df = pre ++ e :: post ->
        In (guid (row e)) (seen ++ col guid pre) -> is_sms (row e) = 1) ->
    incl (dup_labels seen df) D ->
    NoDup (col guid (drop D df))
    /\ (forall g, In g (col guid (drop D df)) -> ~ In g seen).
Proof.
  induction df as [|e df IH]; intros seen D H HD.
  - split; [constructor | intros g []].
  - cbn [dup_labels] in HD.
    assert (HD' : incl (dup_labels (guid (row e) :: seen) df) D).
    { destruct (existsb _ seen && _); [apply incl_cons_inv in HD as [_ HD]|];
        exact HD. }
    destruct (IH (guid (row e) :: seen) D) as [ND Hfresh]; [|exact HD'|].
    { intros pre x post -> Hx. apply (H (e :: pre) x post); [reflexivity|].
      simpl in Hx. destruct Hx as [Hx|Hx].
      - apply in_or_app; right; left; exact Hx.
      - apply in_app_or in Hx as [Hx|Hx]; apply in_or_app;
          [left | right; right]; exact Hx. }
    assert (Hrest : forall g, In g (col guid (drop D df)) -> ~ In g seen).
    { intros g Hg Hs; apply (Hfresh g Hg); right; exact Hs. }
    destruct (in_dec Z.eq_dec (label e) D) as [Hin|Hout].
    + rewrite drop_cons_in by assumption. split; assumption.
    + rewrite drop_cons_notin by assumption.
      assert (Hnew : ~ In (guid (row e)) seen).
      { intros Hs. apply Hout, HD.
        assert (Hsms : is_sms (row e) = 1).
        { apply (H [] e df); [reflexivity|].
          simpl; rewrite app_nil_r; exact Hs. }
        apply seen_In in Hs. rewrite Hs, Hsms; left; reflexivity. }
      split.
      * simpl. constructor; [|exact ND].
        intros Hg; apply (Hfresh _ Hg); left; reflexivity.
      * intros g [<-|Hg]; [exact Hnew | apply Hrest, Hg].
Qed.

Lemma dedup_from_one_guid (g : str) (df : Frame Row) :
  forall seen,
    (forall e, In e df -> guid (row e) = g -> is_sms (row e) = 1) ->
    List.filter (fun e => str_eqb (guid (row e)) g) (dedup_from seen df)
    = if existsb (str_eqb g) seen then []
      else firstn 1 (List.filter (fun e => str_eqb (guid (row e)) g) df).
Proof.
  induction df as [|e df IH]; intros seen H.
  - simpl; destruct (existsb _ seen); reflexivity.
  - assert (H' : forall x, In x df -> guid (row x) = g -> is_sms (row x) = 1).
    { intros x Hx; apply H; right; exact Hx. }
    specialize (IH (guid (row e) :: seen) H').
    cbn [dedup_from List.filter].
    destruct (str_eqb (guid (row e)) g) eqn:E.
    + apply str_eqb_eq in E; subst g.
      rewrite (H e (or_introl eq_refl) eq_refl), Z.eqb_refl, andb_true_r.
      cbn [existsb] in IH. rewrite str_eqb_refl in IH. cbn [orb] in IH.
      destruct (existsb (str_eqb (guid (row e))) seen).
      * exact IH.
      * cbn [List.filter]. rewrite str_eqb_refl, IH. reflexivity.
    + assert (Hseen : existsb (str_eqb g) (guid (row e) :: seen)
                      = existsb (str_eqb g) seen).
      { simpl. destruct (str_eqb g (guid (row e))) eqn:E'; [|reflexivity].
        apply str_eqb_eq in E'; subst g. rewrite str_eqb_refl in E; discriminate. }
      rewrite Hseen in IH.
      destruct (existsb (str_eqb (guid (row e))) seen && (is_sms (row e) =? 1)).
      * exact IH.
      * cbn [List.filter]; rewrite E; exact IH.
Qed.

(** C6, as the spec states it, fails: two native rows with one guid both
    stay. *)
Lemma drop_duplicates_keeps_native_pair :
  drop_duplicates two_native = two_native
  /\ ~ NoDup (col guid (drop_duplicates two_native)).
Proof.
  split; [reflexivity|].
  intros ND. vm_compute in ND. inversion ND as [|x l Hx _]; subst.
  apply Hx; left; reflexivity.
Qed.

(** C6, amended: when every row that repeats the guid of an earlier row is
    an SMS row, no two rows of the deduplicated frame share a guid. *)
Theorem drop_duplicates_guid_unique (df : Frame Row) :
  repeats_are_sms df -> NoDup (col guid (drop_duplicates df)).
Proof.
  intros H. unfold drop_duplicates. rewrite duplicate_guids_eq.
  apply (dedup_guids df [] (dup_labels [] df)); [|apply incl_refl].
  intros pre e post E Hin; exact (H pre e post E Hin).
Qed.

Lemma drop_duplicates_guid_unique_witness :
  let df := [(0, message (s "A") 0); (1, message (s "A") 1);
             (2, message (s "B") 1)] in
  repeats_are_sms df /\ NoDup (col guid (drop_duplicates df)).
Proof.
  intros df.
  assert (H : repeats_are_sms df).
  { intros pre e post E Hin.
    destruct pre as [|p0 pre]; [inversion E; subst; destruct Hin|].
    destruct pre as [|p1 pre]; [inversion E; subst; reflexivity|].
    destruct pre as [|p2 pre]; [inversion E; subst; reflexivity|].
    exfalso. injection E as _ _ _ E'. destruct pre; discriminate. }
  split; [exact H | apply (drop_duplicates_guid_unique df H)].
Defined.

(** C7, as the spec states it, fails: of two SMS rows with one guid the
    second is dropped. *)
Lemma drop_duplicates_drops_sms_pair :
  (forall e, In e two_sms -> guid (row e) = s "A" -> is_sms (row e) = 1)
  /\ drop_duplicates two_sms = [(0, message (s "A") 1)]
  /\ List.filter (fun e => str_eqb (guid (row e)) (s "A")) (drop_duplicates two_sms)
     <> List.filter (fun e => str_eqb (guid (row e)) (s "A")) two_sms.
Proof.
  split; [|split].
  - intros e [<-|[<-|[]]] _; reflexivity.
  - reflexivity.
  - vm_compute; discriminate.
Qed.

(** C7, amended: when all the rows that carry guid [g] are SMS rows (and
    every label names one row), the Deduplicator keeps the first of them
    and drops the others; none is dropped when there is only one. *)
Theorem drop_duplicates_all_sms (df : Frame Row) (g : str) :
  NoDup (List.map label df) ->
  (forall e, In e df -> guid (row e) = g -> is_sms (row e) = 1) ->
  List.filter (fun e => str_eqb (guid (row e)) g) (drop_duplicates df)
  = firstn 1 (List.filter (fun e => str_eqb (guid (row e)) g) df).
Proof.
  intros ND H. rewrite (drop_duplicates_unique_labels df ND).
  apply (dedup_from_one_guid g df [] H).
Qed.

Lemma drop_duplicates_all_sms_witness :
  List.filter (fun e => str_eqb (guid (row e)) (s "A")) (drop_duplicates two_sms)
  = firstn 1 (List.filter (fun e => str_eqb (guid (row e)) (s "A")) two_sms).
Proof.
  apply drop_duplicates_all_sms.
  - simpl. repeat constructor; simpl; intuition discriminate.
  - intros e [<-|[<-|[]]] _; reflexivity.
Defined.

(** C8: the Deduplicator is idempotent. *)
Theorem drop_duplicates_idempotent (df : Frame Row) :
  drop_duplicates (drop_duplicates df) = drop_duplicates df.
Proof.
  unfold drop_duplicates at 1. rewrite duplicate_guids_eq.
  unfold drop_duplicates. rewrite duplicate_guids_eq.
  rewrite (dup_labels_after_drop df [] [] (dup_labels [] df));
    [apply drop_nil | apply incl_refl | apply incl_refl].
Qed.

(** ** Reaction Resolver *)

(** *** The selections as filters *)

Lemma reactions_filter (df : Frame Row) :
  reactions df = List.filter is_reaction df.
Proof. unfold reactions; rewrite notna_col; apply select_map. Qed.

Lemma out_reactions_filter (df : Frame Row) :
  out_reactions df
  = List.filter
      (fun e => (reaction_type (row e) >=? 2000) && (reaction_type (row e) <? 3000)
                && negb (isin1 (reaction_guid (row e))
                               (objs (col guid (self_reactions df)))))
      (reactions df).
Proof.
  unfold out_reactions; cbv zeta.
  rewrite isin_col, mask_not_map, !map_col, !mask_and_map.
  apply select_map.
Qed.

Lemma frame_a_filter (df : Frame Row) :
  frame_a df
  = List.filter
      (fun e => isin1 (Some (guid (row e))) (objs (col guid (out_reactions df)))) df.
Proof. unfold frame_a; rewrite isin_objs_col; apply select_map. Qed.

Lemma frame_b_filter (df : Frame Row) :
  frame_b df
  = List.filter
      (fun e => isin1 (Some (guid (row e))) (col reaction_guid (out_reactions df))) df.
Proof. unfold frame_b; rewrite isin_objs_col; apply select_map. Qed.

Lemma text_message_reactions_filter (df : Frame Row) :
  text_message_reactions df
  = List.filter
      (fun e => negb (isin1 (reaction_guid (row e)) (objs (col guid (frame_b df)))))
      (frame_a df).
Proof.
  unfold text_message_reactions; cbv zeta.
  rewrite isin_col, mask_not_map; apply select_map.
Qed.

Lemma main_reactions_filter (df : Frame Row) :
  main_reactions df
  = List.filter
      (fun e => negb (isin1 (Some (guid (row e)))
                            (objs (col guid (text_message_reactions df)))))
      (out_reactions df).
Proof.
  unfold main_reactions; cbv zeta.
  rewrite isin_objs_col, mask_not_map; apply select_map.
Qed.

Lemma remove_reactions_filter (removed : list str) (df : Frame Row) :
  remove_reactions removed df
  = List.filter (fun e => negb (isin1 (Some (guid (row e))) (objs removed))) df.
Proof.
  unfold remove_reactions; rewrite isin_objs_col, mask_not_map; apply select_map.
Qed.

Lemma in_col {R A} (f : R -> A) (df : Frame R) (e : Z * R) :
  In e df -> In (f (row e)) (col f df).
Proof. intros H; unfold col; apply (in_map (fun x => f (row x))); exact H. Qed.

Lemma in_col_inv {R A} (f : R -> A) (df : Frame R) (v : A) :
  In v (col f df) -> exists e, In e df /\ f (row e) = v.
Proof.
  unfold col; intros H; apply in_map_iff in H as (e & E & He); eauto.
Qed.

Lemma out_reactions_incl (df : Frame Row) (e : Z * Row) :
  In e (out_reactions df) -> In e df.
Proof.
  rewrite out_reactions_filter, reactions_filter.
  intros H; apply filter_In in H as [H _]; apply filter_In in H as [H _]; exact H.
Qed.

Lemma unique_guid_row (df : Frame Row) (x y : Z * Row) :
  NoDup (col guid df) -> In x df -> In y df ->
  guid (row x) = guid (row y) -> x = y.
Proof.
  induction df as [|e df IH]; intros ND Hx Hy E; [destruct Hx|].
  simpl in ND; apply NoDup_cons_iff in ND as [Hn ND].
  destruct Hx as [->|Hx], Hy as [->|Hy].
  - reflexivity.
  - exfalso; apply Hn; rewrite E; apply (in_col guid df y Hy).
  - exfalso; apply Hn; rewrite <- E; apply (in_col guid df x Hx).
  - apply IH; assumption.
Qed.

(** *** The scenario of the spec *)

(** C1: on a message "A" followed by a reaction "B" to it, with code 2000 and
    not sent by me, [update_reactions] returns the one row "A", its
    [reaction_type] 2000 and its text as it was, whatever the other cells. *)
Theorem update_reactions_minimal_pair :
  forall lA lB idA idB thA thB dA dB bA bB fromA smsA smsB textB,
    update_reactions
      [ (lA, mkRow idA (s "A") thA dA bA (Some (s "hi")) fromA smsA None 0);
        (lB, mkRow idB (s "B") thB dB bB textB 0 smsB (Some (s "A")) 2000) ]
    = Ok [ (lA, mkRow idA (s "A") thA dA bA (Some (s "hi")) fromA smsA None 2000) ].
Proof. intros. vm_compute. reflexivity. Qed.

(** The self-reaction scenario of the spec: my reaction to my own message
    is removed and leaves the message as it was. *)
Example update_reactions_self_reaction :
  update_reactions
    [ (0, pair_message);
      (1, mkRow 2 (s "B") None (s "2023-05-01 10:00:05") (BBytes []) None
                1 0 (Some (s "A")) 2001) ]
  = Ok [(0, pair_message)].
Proof. reflexivity. Qed.

(** C3, as the spec states it, fails: in the pair the reaction's target is a
    row of [b], and the reaction is a main reaction. *)
Lemma main_reactions_not_as_specified :
  main_reactions pair = [(1, pair_reaction)]
  /\ main_reactions_as_specified pair = []
  /\ main_reactions pair <> main_reactions_as_specified pair.
Proof.
  split; [reflexivity | split; [reflexivity|]].
  vm_compute; discriminate.
Qed.

(** C3, amended: with guids that name one row each, the main reactions are
    the outbound reactions whose [reaction_guid] appears among the guids of
    [b]; those whose [reaction_guid] is absent from them are excluded. *)
Theorem main_reactions_linked (df : Frame Row) :
  NoDup (col guid df) ->
  main_reactions df
  = List.filter
      (fun e => isin1 (reaction_guid (row e)) (objs (col guid (frame_b df))))
      (out_reactions df).
Proof.
  intros ND. rewrite main_reactions_filter. apply filter_ext_in.
  intros e He.
  assert (Hdf : In e df) by (apply out_reactions_incl; exact He).
  assert (Ha : In e (frame_a df)).
  { rewrite frame_a_filter; apply filter_In; split; [exact Hdf|].
    apply isin1_In. unfold objs.
    apply in_map, (in_col guid (out_reactions df) e He). }
  destruct (isin1 (reaction_guid (row e)) (objs (col guid (frame_b df)))) eqn:B.
  - apply negb_true_iff.
    destruct (isin1 (Some (guid (row e)))
                    (objs (col guid (text_message_reactions df)))) eqn:T;
      [exfalso|reflexivity].
    apply isin1_objs in T as (g & Eg & Hg). injection Eg as <-.
    apply in_col_inv in Hg as (e' & He' & E').
    rewrite text_message_reactions_filter in He'.
    apply filter_In in He' as [Ha' Hn].
    assert (Hdf' : In e' df).
    { rewrite frame_a_filter in Ha'; apply filter_In in Ha' as [H _]; exact H. }
    rewrite (unique_guid_row df e' e ND Hdf' Hdf E'), B in Hn. discriminate.
  - apply negb_false_iff, isin1_In. unfold objs. apply in_map.
    apply (in_col guid (text_message_reactions df) e).
    rewrite text_message_reactions_filter; apply filter_In; split; [exact Ha|].
    rewrite B; reflexivity.
Qed.

Lemma main_reactions_linked_witness :
  main_reactions pair
  = List.filter
      (fun e => isin1 (reaction_guid (row e)) (objs (col guid (frame_b pair))))
      (out_reactions pair).
Proof.
  apply main_reactions_linked.
  simpl. repeat constructor; simpl; intuition discriminate.
Defined.

(** *** The removal step *)

Lemma assign_keeps_rows (keep : str -> bool) (df : Frame Row) :
  forall mask values,
    List.map besides_reaction_type
      (List.filter (fun e => keep (guid (row e)))
                   (assign_reaction_type mask values df))
    = List.map besides_reaction_type
        (List.filter (fun e => keep (guid (row e))) df).
Proof.
  induction df as [|e df IH]; intros mask values.
  - destruct mask; reflexivity.
  - destruct mask as [|m mask]; [reflexivity|].
    destruct e as [l r].
    destruct m; [destruct values as [|v values]|];
      cbn [assign_reaction_type List.filter label row fst snd];
      try (cbn [set_reaction_type guid]);
      destruct (keep (guid r));
      cbn [List.map]; rewrite ?IH; reflexivity.
Qed.

(** C4, as the spec states it, fails: in the pair, "A" is the
    [reaction_guid] of a candidate and its row stays; "B" is the
    [reaction_guid] of no candidate and its row goes. *)
Lemma removal_not_by_reaction_guid :
  update_reactions pair = Ok [(0, set_reaction_type 2000 pair_message)]
  /\ In (Some (s "A")) (col reaction_guid (reactions pair))
  /\ ~ In (Some (s "B")) (col reaction_guid (reactions pair)).
Proof.
  split; [reflexivity | split].
  - left; reflexivity.
  - intros [H|[]]; vm_compute in H; discriminate.
Qed.

(** C4, amended: the removal step drops exactly the rows whose guid is the
    guid of some candidate row (a row of the input with a [reaction_guid]);
    every other row of the input is in the result, in place, and only its
    [reaction_type] may differ. *)
Theorem update_reactions_removes_candidates (df out : Frame Row) :
  update_reactions df = Ok out ->
  List.map besides_reaction_type out
  = List.map besides_reaction_type
      (List.filter
         (fun e => negb (existsb (str_eqb (guid (row e)))
                                 (col guid (List.filter is_reaction df))))
         df).
Proof.
  unfold update_reactions, apply_reactions, loc_set_reaction_type.
  destruct (Nat.eqb _ _); [|discriminate].
  intros E; injection E as <-.
  rewrite remove_reactions_filter. unfold to_remove. rewrite reactions_filter.
  assert (K : forall g c, isin1 (Some g) (objs c) = existsb (str_eqb g) c).
  { intros g c; unfold isin1, objs; induction c as [|x c IH]; simpl;
      [|rewrite IH]; reflexivity. }
  rewrite (filter_ext _ (fun e => negb (existsb (str_eqb (guid (row e)))
                                      (col guid (List.filter is_reaction df)))))
    by (intros e; rewrite K; reflexivity).
  apply (assign_keeps_rows
           (fun g => negb (existsb (str_eqb g)
                                   (col guid (List.filter is_reaction df))))).
Qed.

Lemma update_reactions_removes_candidates_witness :
  List.map besides_reaction_type [(0, set_reaction_type 2000 pair_message)]
  = List.map besides_reaction_type
      (List.filter
         (fun e => negb (existsb (str_eqb (guid (row e)))
                                 (col guid (List.filter is_reaction pair))))
         pair).
Proof.
  apply update_reactions_removes_candidates. reflexivity.
Defined.

(** *** The assignment *)

(** C2 fails on the code: the codes are assigned by position. "A" is the
    target of the reaction with code 2000 and gets 2001, the code of the
    reaction to "B"; "B" gets 2000. *)
Theorem update_reactions_crossed :
  col reaction_guid (main_reactions crossed) = [Some (s "B"); Some (s "A")]
  /\ col reaction_type (main_reactions crossed) = [2001; 2000]
  /\ update_reactions crossed
     = Ok [ (0, mkRow 1 (s "A") None (s "2023-05-01 10:00:00") (BBytes [])
                      (Some (s "hi")) 1 0 None 2001);
            (1, mkRow 2 (s "B") None (s "2023-05-01 10:01:00") (BBytes [])
                      (Some (s "yo")) 1 0 None 2000) ].
Proof. repeat split; reflexivity. Qed.

(** C5 fails on the code: with two reactions to one message the assignment
    has two values for one selected row and raises. *)
Theorem update_reactions_twice_reacted :
  count_true (apply_mask twice_reacted) = 1%nat
  /\ col reaction_type (main_reactions twice_reacted) = [2000; 2001]
  /\ update_reactions twice_reacted = Raise ValueError.
Proof. repeat split; reflexivity. Qed.

(** *** When the assignment raises *)

Lemma count_true_map {A} (f : A -> bool) (l : list A) :
  count_true (List.map f l) = List.length (List.filter f l).
Proof.
  unfold count_true; induction l as [|x l IH]; simpl; [reflexivity|].
  destruct (f x); simpl; rewrite IH; reflexivity.
Qed.

Lemma apply_mask_targets (df : Frame Row) :
  count_true (apply_mask df) = List.length (List.filter (is_target df) df).
Proof.
  unfold apply_mask; rewrite isin_objs_col; apply count_true_map.
Qed.

(** The target of a main reaction is a row of the frame. *)
Lemma main_reaction_target_present (df : Frame Row) (e : Z * Row) :
  In e (main_reactions df) ->
  exists t, In t df /\ reaction_guid (row e) = Some (guid (row t)).
Proof.
  rewrite main_reactions_filter. intros H; apply filter_In in H as [He Hn].
  assert (Hdf : In e df) by (apply out_reactions_incl; exact He).
  destruct (isin1 (reaction_guid (row e)) (objs (col guid (frame_b df)))) eqn:B.
  - apply isin1_objs in B as (g & Eg & Hg).
    apply in_col_inv in Hg as (t & Ht & <-).
    rewrite frame_b_filter in Ht; apply filter_In in Ht as [Ht _].
    exists t; split; assumption.
  - exfalso. apply negb_true_iff in Hn.
    assert (T : isin1 (Some (guid (row e)))
                      (objs (col guid (text_message_reactions df))) = true).
    { apply isin1_In; unfold objs; apply in_map.
      apply (in_col guid (text_message_reactions df) e).
      rewrite text_message_reactions_filter; apply filter_In; split.
      - rewrite frame_a_filter; apply filter_In; split; [exact Hdf|].
        apply isin1_In; unfold objs.
        apply in_map, (in_col guid (out_reactions df) e He).
      - rewrite B; reflexivity. }
    rewrite T in Hn; discriminate.
Qed.

(** The selection of the assignment is empty exactly when there is no main
    reaction: the two lengths it compares are zero together. *)
Lemma no_target_no_main_reaction (df : Frame Row) :
  count_true (apply_mask df) = 0%nat <-> main_reactions df = [].
Proof.
  rewrite apply_mask_targets; split.
  - intros H. destruct (main_reactions df) as [|e m] eqn:M; [reflexivity|].
    exfalso.
    destruct (main_reaction_target_present df e) as (t & Ht & Et);
      [rewrite M; left; reflexivity|].
    assert (Hin : In t (List.filter (is_target df) df)).
    { apply filter_In; split; [exact Ht|].
      unfold is_target; apply isin1_In. rewrite <- Et, M; left; reflexivity. }
    destruct (List.filter (is_target df) df); [destruct Hin | discriminate].
  - intros M. unfold is_target; rewrite M. clear M.
    induction df as [|e df IH]; simpl; [reflexivity | exact IH].
Qed.

Lemma target_guids_unique (df : Frame Row) :
  NoDup (col guid df) ->
  NoDup (List.map (fun e => Some (guid (row e))) (List.filter (is_target df) df)).
Proof.
  generalize (is_target df); intros f.
  induction df as [|e df IH]; intros ND; [constructor|].
  simpl in ND; apply NoDup_cons_iff in ND as [Hn ND]. simpl.
  destruct (f e); [|apply IH; exact ND].
  simpl; constructor; [|apply IH; exact ND].
  intros H; apply in_map_iff in H as (x & Ex & Hx).
  injection Ex as Ex. apply filter_In in Hx as [Hx _].
  apply Hn; rewrite <- Ex; apply (in_col guid df x Hx).
Qed.

Lemma target_guids_incl (df : Frame Row) :
  incl (List.map (fun e => Some (guid (row e))) (List.filter (is_target df) df))
       (col reaction_guid (main_reactions df)).
Proof.
  intros g H; apply in_map_iff in H as (x & <- & Hx).
  apply filter_In in Hx as [_ Hx]; apply isin1_In; exact Hx.
Qed.

(** With guids that name one row each, two main reactions to one target
    make the assignment raise. *)
Lemma update_reactions_shared_target (df m1 m2 m3 : Frame Row) (r1 r2 : Z * Row) :
  NoDup (col guid df) ->
  main_reactions df = m1 ++ r1 :: m2 ++ r2 :: m3 ->
  reaction_guid (row r1) = reaction_guid (row r2) ->
  update_reactions df = Raise ValueError.
Proof.
  intros ND M E.
  unfold update_reactions, apply_reactions, loc_set_reaction_type.
  rewrite apply_mask_targets.
  assert (L : (List.length (List.filter (is_target df) df)
               < List.length (col reaction_type (main_reactions df)))%nat).
  { rewrite <- (length_map (fun e => Some (guid (row e)))).
    apply Nat.le_lt_trans
      with (m := List.length (col reaction_guid (m1 ++ r1 :: m2 ++ m3))).
    - apply NoDup_incl_length; [apply target_guids_unique; exact ND|].
      intros g Hg. apply target_guids_incl in Hg. rewrite M in Hg.
      unfold col in *. rewrite map_app in *. simpl in *. rewrite map_app in *.
      simpl in Hg.
      apply in_app_or in Hg as [Hg|[Hg|Hg]].
      + apply in_or_app; left; exact Hg.
      + apply in_or_app; right; left; exact Hg.
      + apply in_app_or in Hg as [Hg|[Hg|Hg]]; apply in_or_app; right.
        * right; apply in_or_app; left; exact Hg.
        * left; rewrite E; exact Hg.
        * right; apply in_or_app; right; exact Hg.
    - rewrite M. unfold col. rewrite !length_map, !length_app. simpl.
      rewrite !length_app. simpl. lia. }
  destruct (Nat.eqb_spec (List.length (List.filter (is_target df) df))
                         (List.length (col reaction_type (main_reactions df))));
    [lia | reflexivity].
Qed.

(** With guids that name one row each and main reactions to distinct
    targets, [update_reactions] returns a frame. *)
Lemma update_reactions_distinct_targets (df : Frame Row) :
  NoDup (col guid df) ->
  NoDup (col reaction_guid (main_reactions df)) ->
  exists out, update_reactions df = Ok out.
Proof.
  intros ND NT.
  unfold update_reactions, apply_reactions, loc_set_reaction_type.
  rewrite apply_mask_targets.
  assert (L : List.length (List.filter (is_target df) df)
              = List.length (col reaction_type (main_reactions df))).
  { replace (List.length (col reaction_type (main_reactions df)))
      with (List.length (col reaction_guid (main_reactions df)))
      by (unfold col; rewrite !length_map; reflexivity).
    rewrite <- (length_map (fun e => Some (guid (row e)))
                           (List.filter (is_target df) df)).
    apply Nat.le_antisymm.
    - apply NoDup_incl_length; [apply target_guids_unique; exact ND|].
      apply target_guids_incl.
    - apply NoDup_incl_length; [exact NT|].
      intros g Hg. apply in_col_inv in Hg as (e & He & <-).
      destruct (main_reaction_target_present df e He) as (t & Ht & Et).
      rewrite Et. apply (in_map (fun x => Some (guid (row x)))).
      apply filter_In; split; [exact Ht|].
      unfold is_target; apply isin1_In; rewrite <- Et.
      apply (in_col reaction_guid (main_reactions df) e He). }
  rewrite L, Nat.eqb_refl. eexists; reflexivity.
Qed.

(** ** Text Recoverer *)

Lemma lstrip_no_leading_space (x : str) : no_leading_space (lstrip x) = true.
Proof.
  induction x as [|c x IH]; simpl; [reflexivity|].
  destruct (isspace c) eqn:E; [exact IH | simpl; rewrite E; reflexivity].
Qed.

Lemma lstrip_suffix (x : str) : exists p, x = p ++ lstrip x.
Proof.
  induction x as [|c x [p IH]]; simpl; [exists []; reflexivity|].
  destruct (isspace c).
  - exists (c :: p); simpl; f_equal; exact IH.
  - exists []; reflexivity.
Qed.

Lemma rstrip_prefix (x : str) : exists q, x = rstrip x ++ q.
Proof.
  unfold rstrip. destruct (lstrip_suffix (rev x)) as [p E].
  exists (rev p). rewrite <- rev_app_distr, <- E, rev_involutive; reflexivity.
Qed.

Lemma strip_trimmed (x : str) : trimmed (strip x) = true.
Proof.
  unfold trimmed, strip. apply andb_true_iff; split.
  - destruct (rstrip_prefix (lstrip x)) as [q E].
    pose proof (lstrip_no_leading_space x) as H. rewrite E in H.
    destruct (rstrip (lstrip x)); [reflexivity | exact H].
  - unfold rstrip. rewrite rev_involutive. apply lstrip_no_leading_space.
Qed.

(** [split_first] cuts at an occurrence of the separator. *)
Lemma starts_with_app (sep x : str) :
  starts_with sep x = true -> x = sep ++ skipn (List.length sep) x.
Proof.
  revert x; induction sep as [|a sep IH]; intros x H; [reflexivity|].
  destruct x as [|b x]; [discriminate|]. simpl in H.
  apply andb_true_iff in H as [E H]. apply N.eqb_eq in E; subst b.
  simpl; f_equal; apply IH; exact H.
Qed.

Lemma split_first_app (sep x p r : str) :
  split_first sep x = Some (p, r) -> x = p ++ sep ++ r.
Proof.
  revert p r; induction x as [|c x IH]; intros p r H.
  - simpl in H. destruct (starts_with sep []) eqn:E; [|discriminate].
    injection H as <- <-. apply (starts_with_app sep [] E).
  - cbn [split_first] in H. destruct (starts_with sep (c :: x)) eqn:E.
    + injection H as <- <-. apply (starts_with_app sep (c :: x) E).
    + destruct (split_first sep x) as [[p' r']|]; [|discriminate].
      injection H as <- <-. simpl; f_equal; apply IH; reflexivity.
Qed.

Lemma contains_split_first (sep x : str) :
  contains sep x = true <-> split_first sep x <> None.
Proof.
  induction x as [|c x IH]; cbn [contains split_first].
  - destruct (starts_with sep []); simpl; split; congruence.
  - destruct (starts_with sep (c :: x)); simpl; [split; congruence|].
    rewrite IH. destruct (split_first sep x) as [[p r]|]; split; congruence.
Qed.

(** The fuel of [split] is enough: more of it changes nothing. *)
Lemma split_fuel_enough (sep : str) :
  sep <> [] ->
  forall fuel x,
    (List.length x <= fuel)%nat ->
    split_fuel fuel sep x = split_fuel (List.length x) sep x.
Proof.
  intros Hsep fuel.
  induction fuel as [fuel IH] using (well_founded_induction lt_wf).
  intros x Hx.
  destruct fuel as [|fuel].
  - destruct x; [reflexivity | simpl in Hx; lia].
  - destruct x as [|c x].
    + cbn [split_fuel List.length].
      destruct (split_first sep []) as [[p r]|] eqn:E; [|reflexivity].
      apply split_first_app in E. destruct p, sep; try discriminate.
      exfalso; apply Hsep; reflexivity.
    + cbn [split_fuel List.length].
      destruct (split_first sep (c :: x)) as [[p r]|] eqn:E; [|reflexivity].
      f_equal. pose proof (split_first_app sep (c :: x) p r E) as A.
      assert (Hr : (List.length r <= List.length x)%nat).
      { apply (f_equal (@List.length N)) in A.
        rewrite !length_app in A. simpl in A.
        destruct sep; [congruence | simpl in A; lia]. }
      simpl in Hx.
      rewrite (IH fuel) by lia.
      symmetry; apply IH; lia.
Qed.

(** The scenarios of the spec, with a payload that is already a [str]: the
    three markers in order around a value with its six and twelve
    characters of padding; and a payload without the second marker. *)
Example parse_body_recovers (decode : list byte -> str) :
  parse_body decode
    (mkRow 1 (s "A") None (s "2023-05-01 10:00:00")
           (BStr (s "..NSString<<<<<<Hello world>>>>>>>>>>>>NSDictionary..NSNumber.."))
           None 0 0 None 0)
  = Some (s "Hello world").
Proof. reflexivity. Qed.

Example parse_body_gives_up (decode : list byte -> str) :
  parse_body decode
    (mkRow 1 (s "A") None (s "2023-05-01 10:00:00")
           (BStr (s "..<<<<<<Hello world>>>>>>>>>>>>NSDictionary..NSNumber.."))
           None 0 0 None 0)
  = None.
Proof. reflexivity. Qed.






(** ** Thread Selector *)

Section ThreadSelection.

Variable R : Type.
Variable guid_of : R -> str.
Variable thread_guid_of : R -> option str.
Variable thread : str.

Local Abbreviation is_root := (is_root guid_of thread).
Local Abbreviation is_reply := (is_reply thread_guid_of thread).

Lemma get_thread_messages_filter (df : Frame R) :
  get_thread_messages guid_of thread_guid_of df thread
  = List.filter is_root df ++ List.filter is_reply df.
Proof.
  unfold get_thread_messages, pd_concat, eq_mask, objs, col.
  rewrite !map_map. cbn [List.concat]. rewrite app_nil_r.
  f_equal; [exact (select_map is_root df) | exact (select_map is_reply df)].
Qed.

Lemma roots_then_replies_perm (df : Frame R) :
  (forall e, In e df -> is_root e && is_reply e = false) ->
  Permutation (List.filter is_root df ++ List.filter is_reply df)
              (List.filter (fun e => is_root e || is_reply e) df).
Proof.
  induction df as [|e df IH]; intros H; [constructor|].
  assert (H' : forall x, In x df -> is_root x && is_reply x = false)
    by (intros x Hx; apply H; right; exact Hx).
  specialize (IH H'). pose proof (H e (or_introl eq_refl)) as He.
  cbn [List.filter].
  destruct (is_root e), (is_reply e); try discriminate; cbn [orb].
  - simpl; apply perm_skip, IH.
  - apply Permutation_sym, Permutation_cons_app, Permutation_sym, IH.
  - exact IH.
Qed.

(** When the roots come before the replies in the frame, the result is in
    the order of the frame. *)
Lemma get_thread_messages_table_order (pre post : Frame R) :
  (forall e, In e pre -> is_reply e = false) ->
  (forall e, In e post -> is_root e = false) ->
  get_thread_messages guid_of thread_guid_of (pre ++ post) thread
  = List.filter (fun e => is_root e || is_reply e) (pre ++ post).
Proof.
  intros Hpre Hpost. rewrite get_thread_messages_filter, !filter_app.
  assert (E1 : List.filter is_reply pre = []).
  { clear Hpost; induction pre as [|e l IH]; [reflexivity|]; simpl.
    rewrite (Hpre e (or_introl eq_refl)).
    apply IH; intros x Hx; apply Hpre; right; exact Hx. }
  assert (E2 : List.filter is_root post = []).
  { clear Hpre E1; induction post as [|e l IH]; [reflexivity|]; simpl.
    rewrite (Hpost e (or_introl eq_refl)).
    apply IH; intros x Hx; apply Hpost; right; exact Hx. }
  rewrite E1, E2, app_nil_r. cbn [app]. f_equal; apply filter_ext_in; intros e He.
  - rewrite (Hpre e He), orb_false_r; reflexivity.
  - rewrite (Hpost e He); reflexivity.
Qed.

(** C10, amended: [get_thread_messages] is the rows with [guid = thread]
    followed by the rows with [thread_guid = thread], each selection in the
    order of the frame. A row of the frame with both is in the result twice.
    When no row has both, the result holds the matching rows of the frame,
    each as often as the frame does, the first selection before the second;
    and it is empty when no row matches. *)
Theorem get_thread_messages_concat (df : Frame R) :
  get_thread_messages guid_of thread_guid_of df thread
  = List.filter is_root df ++ List.filter is_reply df
  /\ (forall e, In e df -> is_root e = true -> is_reply e = true ->
      exists l1 l2 l3,
        get_thread_messages guid_of thread_guid_of df thread
        = l1 ++ e :: l2 ++ e :: l3)
  /\ ((forall e, In e df -> is_root e && is_reply e = false) ->
      Permutation (get_thread_messages guid_of thread_guid_of df thread)
                  (List.filter (fun e => is_root e || is_reply e) df))
  /\ ((forall e, In e df -> is_root e || is_reply e = false) ->
      get_thread_messages guid_of thread_guid_of df thread = []).
Proof.
  rewrite get_thread_messages_filter. repeat split.
  - intros e He Hroot Hreply.
    assert (H1 : In e (List.filter is_root df)) by (apply filter_In; auto).
    assert (H2 : In e (List.filter is_reply df)) by (apply filter_In; auto).
    apply in_split in H1 as (a1 & a2 & ->).
    apply in_split in H2 as (b1 & b2 & ->).
    exists a1, (a2 ++ b1), b2.
    rewrite <- !app_assoc; reflexivity.
  - apply roots_then_replies_perm.
  - intros H.
    assert (E : forall f : Z * R -> bool,
               (forall e, In e df -> f e = false) -> List.filter f df = []).
    { intros f Hf. induction df as [|e l IH]; [reflexivity|]; simpl.
      rewrite (Hf e (or_introl eq_refl)).
      apply IH; [intros x Hx; apply H | intros x Hx; apply Hf]; right; exact Hx. }
    rewrite (E is_root), (E is_reply); [reflexivity| |];
      intros e He; specialize (H e He); apply orb_false_iff in H; tauto.
Qed.

End ThreadSelection.

Lemma get_thread_messages_concat_witness :
  Permutation (get_thread_messages t_guid t_thread_guid threaded (s "T"))
              (List.filter (fun e => is_root t_guid (s "T") e
                                     || is_reply t_thread_guid (s "T") e)
                           threaded).
Proof.
  apply (get_thread_messages_concat TextRow t_guid t_thread_guid (s "T") threaded).
  intros e [<-|[<-|[<-|[<-|[]]]]]; reflexivity.
Defined.

Example get_thread_messages_threaded :
  get_thread_messages t_guid t_thread_guid threaded (s "T")
  = [ (0, text_row (s "T") None);
      (1, text_row (s "R1") (Some (s "T")));
      (2, text_row (s "R2") (Some (s "T"))) ].
Proof. reflexivity. Qed.

(** A row that names itself as the root of its thread comes out twice. *)
Example get_thread_messages_self_thread :
  get_thread_messages t_guid t_thread_guid
    [(0, text_row (s "T") (Some (s "T"))); (1, text_row (s "R1") (Some (s "T")))]
    (s "T")
  = [ (0, text_row (s "T") (Some (s "T")));
      (0, text_row (s "T") (Some (s "T")));
      (1, text_row (s "R1") (Some (s "T"))) ].
Proof. reflexivity. Qed.

(** C10, as the claim states it, fails: no row of this frame has both, and
    the matching rows do not come out in the order of the frame. *)
Lemma get_thread_messages_not_in_frame_order :
  let df := [(0, text_row (s "R1") (Some (s "T"))); (1, text_row (s "T") None)] in
  (forall e, In e df ->
             is_root t_guid (s "T") e && is_reply t_thread_guid (s "T") e = false)
  /\ get_thread_messages t_guid t_thread_guid df (s "T")
     <> List.filter (fun e => is_root t_guid (s "T") e
                              || is_reply t_thread_guid (s "T") e) df.
Proof.
  intros df. split.
  - intros e [<-|[<-|[]]]; reflexivity.
  - vm_compute. discriminate.
Qed.

(** A reply that precedes the root in the frame comes after it in the
    result. *)
Example get_thread_messages_reply_first :
  get_thread_messages t_guid t_thread_guid
    [(0, text_row (s "R1") (Some (s "T"))); (1, text_row (s "T") None)]
    (s "T")
  = [ (1, text_row (s "T") None); (0, text_row (s "R1") (Some (s "T"))) ].
Proof. reflexivity. Qed.


(** * Further properties of the stages *)

(** ** Deduplicator *)

Lemma dedup_from_incl (df : Frame Row) :
  forall seen e, In e (dedup_from seen df) -> In e df.
Proof.
  induction df as [|x df IH]; intros seen e H; [exact H|].
  cbn [dedup_from] in H. destruct (existsb _ seen && _).
  - right; exact (IH _ _ H).
  - destruct H as [H|H]; [left; exact H | right; exact (IH _ _ H)].
Qed.

Lemma dedup_from_position (pre : Frame Row) :
  forall seen e post,
    NoDup (List.map label (pre ++ e :: post)) ->
    (In e (dedup_from seen (pre ++ e :: post))
     <-> ~ (In (guid (row e)) (seen ++ col guid pre) /\ is_sms (row e) = 1)).
Proof.
  induction pre as [|p pre IH]; intros seen e post ND.
  - cbn [app col List.map] in *. rewrite app_nil_r.
    apply NoDup_cons_iff in ND as [Hl _]. cbn [dedup_from].
    destruct (existsb (str_eqb (guid (row e))) seen) eqn:S1;
      destruct (is_sms (row e) =? 1) eqn:S2; cbn [andb].
    + apply seen_In in S1. apply Z.eqb_eq in S2. split; [|tauto].
      intros H. exfalso. apply Hl.
      apply (in_map label), (dedup_from_incl _ _ _ H).
    + apply Z.eqb_neq in S2. split; [tauto | intros _; left; reflexivity].
    + split; [|intros _; left; reflexivity].
      intros _ [H _]. apply seen_In in H. congruence.
    + split; [|intros _; left; reflexivity].
      intros _ [H _]. apply seen_In in H. congruence.
  - cbn [app List.map] in ND. apply NoDup_cons_iff in ND as [Hl ND].
    assert (Hpe : p <> e).
    { intros ->. apply Hl. rewrite map_app. apply in_or_app; right; left.
      reflexivity. }
    specialize (IH (guid (row p) :: seen) e post ND).
    assert (Hseen : In (guid (row e)) ((guid (row p) :: seen) ++ col guid pre)
                    <-> In (guid (row e)) (seen ++ col guid (p :: pre))).
    { unfold col. cbn [app List.map]. cbn [In]. rewrite !in_app_iff. cbn [In].
      tauto. }
    cbn [app dedup_from].
    destruct (existsb _ seen && _).
    + rewrite IH, Hseen; reflexivity.
    + simpl. rewrite IH, Hseen. split; [tauto|].
      intros H; right; exact H.
Qed.

(** With labels that name one row each, a row is dropped exactly when it is
    an SMS row and an earlier row has its guid. *)
Theorem drop_duplicates_drops_later_sms (pre post : Frame Row) (e : Z * Row) :
  NoDup (List.map label (pre ++ e :: post)) ->
  (In e (drop_duplicates (pre ++ e :: post))
   <-> ~ (In (guid (row e)) (col guid pre) /\ is_sms (row e) = 1)).
Proof.
  intros ND. rewrite (drop_duplicates_unique_labels _ ND).
  apply (dedup_from_position pre [] e post ND).
Qed.

Lemma drop_duplicates_drops_later_sms_witness :
  In (1, message (s "A") 0)
     (drop_duplicates ([(0, message (s "A") 1)] ++ (1, message (s "A") 0) :: [])).
Proof.
  apply drop_duplicates_drops_later_sms.
  - simpl. repeat constructor; simpl; intuition discriminate.
  - intros [_ H]; discriminate H.
Defined.

Lemma dedup_from_native (df : Frame Row) :
  forall seen,
    List.filter is_native (dedup_from seen df) = List.filter is_native df.
Proof.
  induction df as [|e df IH]; intros seen; [reflexivity|].
  cbn [dedup_from List.filter]. unfold is_native at 2.
  destruct (is_sms (row e) =? 1) eqn:S2; cbn [negb].
  - rewrite andb_true_r. destruct (existsb _ seen); [apply IH|].
    cbn [List.filter]. unfold is_native at 1. rewrite S2. apply IH.
  - rewrite andb_false_r. cbn [List.filter]. unfold is_native at 1.
    rewrite S2. cbn [negb]. f_equal; apply IH.
Qed.

(** With labels that name one row each, no native row is ever dropped: the
    native rows of the result are those of the input, in order. *)
Theorem drop_duplicates_keeps_native (df : Frame Row) :
  NoDup (List.map label df) ->
  List.filter is_native (drop_duplicates df) = List.filter is_native df.
Proof.
  intros ND. rewrite (drop_duplicates_unique_labels df ND).
  apply dedup_from_native.
Qed.

Lemma drop_duplicates_keeps_native_witness :
  List.filter is_native (drop_duplicates two_native)
  = List.filter is_native two_native.
Proof.
  apply drop_duplicates_keeps_native.
  simpl. repeat constructor; simpl; intuition discriminate.
Defined.

Lemma dedup_from_guids (df : Frame Row) :
  forall seen g,
    In g (seen ++ col guid (dedup_from seen df)) <-> In g (seen ++ col guid df).
Proof.
  induction df as [|e df IH]; intros seen g; [reflexivity|].
  specialize (IH (guid (row e) :: seen) g).
  cbn [dedup_from].
  destruct (existsb (str_eqb (guid (row e))) seen) eqn:S1; cbn [andb].
  - apply seen_In in S1.
    assert (K : forall l, In g ((guid (row e) :: seen) ++ l) <-> In g (seen ++ l)).
    { intros l. simpl. rewrite !in_app_iff. split; [|tauto].
      intros [<-|H]; [left; exact S1 | exact H]. }
    rewrite K in IH.
    assert (K' : In g (seen ++ col guid (e :: df))
                 <-> In g ((guid (row e) :: seen) ++ col guid df)).
    { cbn [col List.map]. simpl. rewrite !in_app_iff. simpl. tauto. }
    rewrite K'.
    destruct (is_sms (row e) =? 1).
    + exact IH.
    + cbn [col List.map]. fold (col guid (dedup_from (guid (row e) :: seen) df)).
      rewrite <- IH. rewrite !in_app_iff. simpl. split; [|tauto].
      intros [H|[<-|H]]; tauto.
  - cbn [col List.map].
    fold (col guid (dedup_from (guid (row e) :: seen) df)). fold (col guid df).
    simpl in IH. rewrite !in_app_iff in *. simpl. tauto.
Qed.

(** With labels that name one row each, no guid disappears: every guid of
    the input is still the guid of a row of the result. *)
Theorem drop_duplicates_keeps_every_guid (df : Frame Row) (g : str) :
  NoDup (List.map label df) ->
  (In g (col guid (drop_duplicates df)) <-> In g (col guid df)).
Proof.
  intros ND. rewrite (drop_duplicates_unique_labels df ND).
  apply (dedup_from_guids df [] g).
Qed.

Lemma drop_duplicates_keeps_every_guid_witness :
  In (s "A") (col guid (drop_duplicates two_sms)) <-> In (s "A") (col guid two_sms).
Proof.
  apply drop_duplicates_keeps_every_guid.
  simpl. repeat constructor; simpl; intuition discriminate.
Defined.

Lemma dup_labels_fresh (df : Frame Row) :
  forall seen,
    NoDup (col guid df) ->
    (forall g, In g (col guid df) -> ~ In g seen) ->
    dup_labels seen df = [].
Proof.
  induction df as [|e df IH]; intros seen ND Hf; [reflexivity|].
  cbn [col List.map] in ND. apply NoDup_cons_iff in ND as [Hn ND].
  cbn [dup_labels].
  destruct (existsb (str_eqb (guid (row e))) seen) eqn:S1.
  - exfalso. apply seen_In in S1. apply (Hf (guid (row e))); [left; reflexivity|].
    exact S1.
  - cbn [andb]. apply IH; [exact ND|].
    intros g Hg [<-|Hs]; [exact (Hn Hg)|].
    apply (Hf g); [right; exact Hg | exact Hs].
Qed.

(** A frame whose guids are all different comes back unchanged, whatever
    its labels and channel flags. *)
Theorem drop_duplicates_unique_guids (df : Frame Row) :
  NoDup (col guid df) -> drop_duplicates df = df.
Proof.
  intros ND. unfold drop_duplicates. rewrite duplicate_guids_eq.
  rewrite (dup_labels_fresh df [] ND); [apply drop_nil|].
  intros g _ [].
Qed.

Lemma drop_duplicates_unique_guids_witness :
  drop_duplicates pair = pair.
Proof.
  apply drop_duplicates_unique_guids.
  simpl. repeat constructor; simpl; intuition discriminate.
Defined.

(** ** Reaction Resolver *)

Lemma self_reactions_filter (df : Frame Row) :
  self_reactions df
  = List.filter
      (fun e =>
         isin1 (Some (guid (row e)))
               (col reaction_guid
                  (List.filter
                     (fun x => (reaction_type (row x) >? 1000)
                               && (is_from_me (row x) =? 1)) df))
         && (is_from_me (row e) =? 1))
      df.
Proof.
  unfold self_reactions.
  rewrite !map_col, mask_and_map, select_map, isin_objs_col, mask_and_map.
  apply select_map.
Qed.

Lemma main_reactions_out (df : Frame Row) (e : Z * Row) :
  In e (main_reactions df) -> In e (out_reactions df).
Proof.
  rewrite main_reactions_filter; intros H; apply filter_In in H as [H _]; exact H.
Qed.

Lemma out_reactions_inv (df : Frame Row) (e : Z * Row) :
  In e (out_reactions df) ->
  In e df /\ is_reaction e = true /\ applied_code (reaction_type (row e))
  /\ isin1 (reaction_guid (row e)) (objs (col guid (self_reactions df))) = false.
Proof.
  rewrite out_reactions_filter, reactions_filter. intros H.
  apply filter_In in H as [H C]. apply filter_In in H as [H R].
  apply andb_true_iff in C as [C C3]. apply andb_true_iff in C as [C1 C2].
  apply Z.geb_le in C1. apply Z.ltb_lt in C2. apply negb_true_iff in C3.
  unfold applied_code. repeat split; try assumption; lia.
Qed.

Lemma remove_reactions_not_removed (df x : Frame Row) :
  remove_reactions (to_remove df) x = List.filter (not_removed df) x.
Proof.
  rewrite remove_reactions_filter. unfold to_remove. rewrite reactions_filter.
  apply filter_ext. intros e. unfold not_removed. f_equal.
  unfold isin1, objs. generalize (col guid (List.filter is_reaction df)).
  intros c; induction c as [|g c IH]; simpl; [|rewrite IH]; reflexivity.
Qed.

Lemma update_reactions_ok_inv (df out : Frame Row) :
  update_reactions df = Ok out ->
  count_true (apply_mask df)
  = List.length (col reaction_type (main_reactions df))
  /\ out = List.filter (not_removed df)
             (assign_reaction_type (apply_mask df)
                (col reaction_type (main_reactions df)) df).
Proof.
  unfold update_reactions, apply_reactions, loc_set_reaction_type.
  destruct (Nat.eqb_spec (count_true (apply_mask df))
                         (List.length (col reaction_type (main_reactions df))))
    as [E|E]; [|discriminate].
  intros H; injection H as <-. split; [exact E|].
  apply remove_reactions_not_removed.
Qed.

Lemma update_reactions_ok_intro (df : Frame Row) :
  count_true (apply_mask df)
  = List.length (col reaction_type (main_reactions df)) ->
  update_reactions df
  = Ok (List.filter (not_removed df)
          (assign_reaction_type (apply_mask df)
             (col reaction_type (main_reactions df)) df)).
Proof.
  intros E. unfold update_reactions, apply_reactions, loc_set_reaction_type.
  rewrite E, Nat.eqb_refl. rewrite remove_reactions_not_removed. reflexivity.
Qed.

Lemma apply_mask_map (df : Frame Row) :
  apply_mask df = List.map (is_target df) df.
Proof. unfold apply_mask; apply isin_objs_col. Qed.

Lemma Forall2_filter {A B} (R : A -> B -> Prop) (P : A -> bool) (Q : B -> bool)
      (l : list A) (l' : list B) :
  (forall x y, R x y -> P x = Q y) ->
  Forall2 R l l' -> Forall2 R (List.filter P l) (List.filter Q l').
Proof.
  intros HPQ H; induction H as [|x y l l' Hxy _ IH]; [constructor|].
  simpl. rewrite <- (HPQ x y Hxy). destruct (P x); [constructor|]; assumption.
Qed.

Lemma besides_reaction_type_inv (e e' : Z * Row) :
  besides_reaction_type e = besides_reaction_type e' ->
  label e = label e' /\ guid (row e) = guid (row e')
  /\ reaction_guid (row e) = reaction_guid (row e').
Proof.
  destruct e as [l r], e' as [l' r']; destruct r, r'.
  unfold besides_reaction_type, set_reaction_type; simpl.
  intros H; injection H; intros; subst; auto.
Qed.

(** What the assignment does to each row, when the two lengths agree. *)
Lemma assign_rel (T : Z * Row -> bool) (df : Frame Row) :
  forall values,
    count_true (List.map T df) = List.length values ->
    Forall2
      (fun e e' =>
         besides_reaction_type e = besides_reaction_type e'
         /\ if T e then In (reaction_type (row e')) values else e' = e)
      df (assign_reaction_type (List.map T df) values df).
Proof.
  induction df as [|e df IH]; intros values H; [constructor|].
  cbn [List.map assign_reaction_type]. unfold count_true in H.
  cbn [List.map List.filter] in H.
  destruct (T e) eqn:Te.
  - destruct values as [|v values]; [discriminate|].
    simpl in H. injection H as H.
    constructor.
    + rewrite Te. split; [|left; reflexivity].
      destruct e as [l r]; destruct r; reflexivity.
    + eapply Forall2_impl; [|apply (IH values H)].
      intros x y [B C]; split; [exact B|]. cbv beta in C |- *.
      destruct (T x); [right; exact C | exact C].
  - constructor.
    + rewrite Te; split; reflexivity.
    + apply IH; exact H.
Qed.

(** The same when the targets stand in the frame in the order of the
    reactions [m] to them. *)
Lemma assign_aligned (T : Z * Row -> bool) (df : Frame Row) :
  forall m : Frame Row,
    List.map (fun e => Some (guid (row e))) (List.filter T df)
    = col reaction_guid m ->
    Forall2
      (fun e e' =>
         if T e
         then exists r, In r m
                        /\ reaction_guid (row r) = Some (guid (row e))
                        /\ e' = (label e,
                                 set_reaction_type (reaction_type (row r)) (row e))
         else e' = e)
      df (assign_reaction_type (List.map T df) (col reaction_type m) df).
Proof.
  induction df as [|e df IH]; intros m H; [constructor|].
  cbn [List.map assign_reaction_type List.filter] in *.
  destruct (T e) eqn:Te.
  - destruct m as [|r m]; [discriminate|].
    cbn [col List.map] in *. injection H as Hr H.
    constructor.
    + rewrite Te. exists r. repeat split; [left; reflexivity | symmetry; exact Hr].
    + eapply Forall2_impl; [|apply (IH m H)].
      intros x y C. cbv beta in C |- *. destruct (T x); [|exact C].
      destruct C as (r' & Hin & C); exists r'; split; [right; exact Hin | exact C].
  - constructor; [rewrite Te; reflexivity | apply IH; exact H].
Qed.

Lemma update_reactions_rel (df out : Frame Row) :
  update_reactions df = Ok out ->
  Forall2
    (fun e e' =>
       besides_reaction_type e = besides_reaction_type e'
       /\ if is_target df e
          then In (reaction_type (row e')) (col reaction_type (main_reactions df))
          else e' = e)
    (List.filter (not_removed df) df) out.
Proof.
  intros H. apply update_reactions_ok_inv in H as [E ->].
  rewrite apply_mask_map in *.
  apply Forall2_filter; [|apply assign_rel; exact E].
  intros x y [B _]. apply besides_reaction_type_inv in B as (_ & G & _).
  unfold not_removed; rewrite G; reflexivity.
Qed.

(** Whenever [update_reactions] returns, its result is the rows of the input
    that are no candidates, in order; a row that is the target of no main
    reaction is returned as it was, and a target has the code of some main
    reaction, which is a code from 2000 to 2999. *)
Theorem update_reactions_writes_applied_codes (df out : Frame Row) :
  update_reactions df = Ok out ->
  Forall2
    (fun e e' =>
       besides_reaction_type e = besides_reaction_type e'
       /\ if is_target df e
          then applied_code (reaction_type (row e'))
          else e' = e)
    (List.filter (not_removed df) df) out.
Proof.
  intros H. eapply Forall2_impl; [|apply (update_reactions_rel df out H)].
  intros e e' [B C]; split; [exact B|].
  destruct (is_target df e); [|exact C].
  apply in_col_inv in C as (r & Hr & <-).
  apply main_reactions_out, out_reactions_inv in Hr. tauto.
Qed.

Lemma update_reactions_writes_applied_codes_witness :
  Forall2
    (fun e e' =>
       besides_reaction_type e = besides_reaction_type e'
       /\ if is_target crossed e
          then applied_code (reaction_type (row e'))
          else e' = e)
    (List.filter (not_removed crossed) crossed)
    [ (0, mkRow 1 (s "A") None (s "2023-05-01 10:00:00") (BBytes [])
                (Some (s "hi")) 1 0 None 2001);
      (1, mkRow 2 (s "B") None (s "2023-05-01 10:01:00") (BBytes [])
                (Some (s "yo")) 1 0 None 2000) ].
Proof.
  apply update_reactions_writes_applied_codes. reflexivity.
Defined.

Lemma no_candidate_left (df out : Frame Row) :
  update_reactions df = Ok out ->
  forall e, In e out -> reaction_guid (row e) = None.
Proof.
  intros H. apply Forall_forall. apply update_reactions_rel in H.
  remember (List.filter (not_removed df) df) as kept eqn:K.
  assert (Hk : forall e, In e kept -> not_removed df e = true /\ In e df).
  { intros e He; subst kept; apply filter_In in He; tauto. }
  clear K. induction H as [|e e' l l' [B _] _ IH]; constructor.
  - destruct (Hk e (or_introl eq_refl)) as [N Hin].
    apply besides_reaction_type_inv in B as (_ & _ & <-).
    destruct (reaction_guid (row e)) as [g|] eqn:G; [exfalso|reflexivity].
    unfold not_removed in N. apply negb_true_iff in N.
    assert (S : existsb (str_eqb (guid (row e)))
                        (col guid (List.filter is_reaction df)) = true).
    { apply seen_In. apply (in_col guid (List.filter is_reaction df) e).
      apply filter_In; split; [exact Hin|]. unfold is_reaction; rewrite G.
      reflexivity. }
    rewrite S in N; discriminate.
  - apply IH. intros x Hx; apply Hk; right; exact Hx.
Qed.

(** Whenever [update_reactions] returns, no row of the result has a
    [reaction_guid]: all the reaction, game, sticker and retraction rows are
    gone. *)
Theorem update_reactions_leaves_no_candidate (df out : Frame Row) :
  update_reactions df = Ok out ->
  Forall (fun e => reaction_guid (row e) = None) out.
Proof.
  intros H. apply Forall_forall. intros e He.
  exact (no_candidate_left df out H e He).
Qed.

Lemma update_reactions_leaves_no_candidate_witness :
  Forall (fun e => reaction_guid (row e) = None)
         [(0, set_reaction_type 2000 pair_message)].
Proof.
  apply (update_reactions_leaves_no_candidate pair). reflexivity.
Defined.

Lemma returned_targets_distinct (df out : Frame Row) :
  NoDup (col guid df) ->
  update_reactions df = Ok out ->
  NoDup (col reaction_guid (main_reactions df)).
Proof.
  intros ND H. apply update_reactions_ok_inv in H as [E _].
  rewrite apply_mask_targets in E.
  apply NoDup_incl_NoDup
    with (l := List.map (fun e => Some (guid (row e)))
                        (List.filter (is_target df) df)).
  - apply target_guids_unique; exact ND.
  - rewrite length_map, E. unfold col; rewrite !length_map. apply Nat.le_refl.
  - apply target_guids_incl.
Qed.

Lemma shared_target_raises (df : Frame Row) :
  NoDup (col guid df) ->
  ~ NoDup (col reaction_guid (main_reactions df)) ->
  update_reactions df = Raise ValueError.
Proof.
  intros ND N. destruct (update_reactions df) as [out|[]] eqn:U; [|reflexivity].
  exfalso; apply N, (returned_targets_distinct df out ND U).
Qed.

(** With guids that name one row each, [update_reactions] returns a frame
    exactly when the main reactions have different targets, and raises
    ValueError exactly when two of them share one. *)
Theorem update_reactions_returns_iff (df : Frame Row) :
  NoDup (col guid df) ->
  ((exists out, update_reactions df = Ok out)
   <-> NoDup (col reaction_guid (main_reactions df)))
  /\ (update_reactions df = Raise ValueError
      <-> ~ NoDup (col reaction_guid (main_reactions df))).
Proof.
  intros ND.
  assert (Hok : (exists out, update_reactions df = Ok out)
                <-> NoDup (col reaction_guid (main_reactions df))).
  { split; [|apply update_reactions_distinct_targets; exact ND].
    intros [out H]. exact (returned_targets_distinct df out ND H). }
  split; [exact Hok|].
  destruct (update_reactions df) as [out|[]] eqn:U.
  - split; [discriminate|]. intros N; exfalso; apply N, Hok; eauto.
  - split; [|reflexivity]. intros _ N. apply Hok in N as [out N]; discriminate.
Qed.

Lemma update_reactions_returns_iff_witness :
  update_reactions twice_reacted = Raise ValueError
  <-> ~ NoDup (col reaction_guid (main_reactions twice_reacted)).
Proof.
  apply update_reactions_returns_iff.
  simpl. repeat constructor; simpl; intuition discriminate.
Defined.

Lemma filter_none {A} (f : A -> bool) (l : list A) :
  (forall x, In x l -> f x = false) -> List.filter f l = [].
Proof.
  induction l as [|x l IH]; intros H; [reflexivity|]. simpl.
  rewrite (H x (or_introl eq_refl)). apply IH. intros y Hy; apply H; right; exact Hy.
Qed.

Lemma assign_no_values (df : Frame Row) :
  forall mask, assign_reaction_type mask [] df = df.
Proof.
  induction df as [|e df IH]; intros [|m mask]; try reflexivity.
  cbn [assign_reaction_type]. destruct m; rewrite IH; reflexivity.
Qed.

(** When no candidate has a code from 2000 to 2999 (games, stickers and
    retractions only, or no candidate at all), [update_reactions] returns
    the rows that are no candidates, each as it was. *)
Theorem update_reactions_nothing_to_apply (df : Frame Row) :
  (forall e, In e df -> is_reaction e = true ->
             ~ applied_code (reaction_type (row e))) ->
  update_reactions df = Ok (List.filter (not_removed df) df).
Proof.
  intros H.
  assert (M : main_reactions df = []).
  { destruct (main_reactions df) as [|e m] eqn:M; [reflexivity|exfalso].
    assert (He : In e (main_reactions df)) by (rewrite M; left; reflexivity).
    apply main_reactions_out, out_reactions_inv in He as (Hin & R & C & _).
    exact (H e Hin R C). }
  rewrite update_reactions_ok_intro.
  - rewrite M. cbn [col List.map]. rewrite assign_no_values. reflexivity.
  - rewrite M. apply no_target_no_main_reaction. exact M.
Qed.

Lemma update_reactions_nothing_to_apply_witness :
  update_reactions retracted = Ok [(0, pair_message)]
  /\ update_reactions retracted
     = Ok (List.filter (not_removed retracted) retracted).
Proof.
  split; [reflexivity|].
  apply update_reactions_nothing_to_apply.
  intros e [<-|[<-|[<-|[]]]] R; try discriminate R;
    unfold applied_code; simpl; lia.
Defined.

(** A message of mine to which I reacted with a code above 1000 takes no
    reaction at all: no main reaction has it as target, the reactions of
    the other side included. *)
Theorem self_reaction_blocks_target (df : Frame Row) (mine t : Z * Row) :
  In mine df -> is_from_me (row mine) = 1 ->
  1000 < reaction_type (row mine) ->
  reaction_guid (row mine) = Some (guid (row t)) ->
  In t df -> is_from_me (row t) = 1 ->
  Forall (fun r => reaction_guid (row r) <> Some (guid (row t)))
         (main_reactions df).
Proof.
  intros Hm Fm Cm Gm Ht Ft. apply Forall_forall. intros r Hr E.
  apply main_reactions_out, out_reactions_inv in Hr as (_ & _ & _ & N).
  assert (S : isin1 (reaction_guid (row r))
                    (objs (col guid (self_reactions df))) = true).
  { rewrite E. apply isin1_In. unfold objs. apply in_map.
    apply (in_col guid (self_reactions df) t).
    rewrite self_reactions_filter. apply filter_In; split; [exact Ht|].
    apply andb_true_iff; split; [|apply Z.eqb_eq; exact Ft].
    apply isin1_In. rewrite <- Gm.
    apply (in_col reaction_guid
                  (List.filter (fun x => (reaction_type (row x) >? 1000)
                                         && (is_from_me (row x) =? 1)) df) mine).
    apply filter_In; split; [exact Hm|].
    apply andb_true_iff; split; [apply Z.gtb_lt; exact Cm | apply Z.eqb_eq; exact Fm]. }
  rewrite S in N; discriminate.
Qed.

Lemma self_reaction_blocks_target_witness :
  main_reactions self_reacted
  = [(4, mkRow 5 (s "E") None (s "2023-05-01 10:02:00") (BBytes []) None
               1 0 (Some (s "D")) 2002)]
  /\ Forall (fun r => reaction_guid (row r) <> Some (guid pair_message))
            (main_reactions self_reacted).
Proof.
  split; [reflexivity|].
  apply (self_reaction_blocks_target self_reacted
           (1, mkRow 2 (s "B") None (s "2023-05-01 10:00:05") (BBytes []) None
                     1 0 (Some (s "A")) 2001)
           (0, pair_message)).
  - right; left; reflexivity.
  - reflexivity.
  - reflexivity.
  - reflexivity.
  - left; reflexivity.
  - reflexivity.
Defined.

(** When the targets stand in the frame in the order of the main reactions
    to them, [update_reactions] returns, and every target has the code of a
    main reaction whose [reaction_guid] is its guid; the other rows that
    stay are as they were. *)
Theorem update_reactions_aligned (df : Frame Row) :
  List.map (fun e => Some (guid (row e))) (List.filter (is_target df) df)
  = col reaction_guid (main_reactions df) ->
  exists out,
    update_reactions df = Ok out
    /\ Forall2
         (fun e e' =>
            if is_target df e
            then exists r, In r (main_reactions df)
                           /\ reaction_guid (row r) = Some (guid (row e))
                           /\ e' = (label e,
                                    set_reaction_type (reaction_type (row r)) (row e))
            else e' = e)
         (List.filter (not_removed df) df) out.
Proof.
  intros H. eexists; split.
  - apply update_reactions_ok_intro. rewrite apply_mask_targets.
    apply (f_equal (@List.length (option str))) in H.
    unfold col in *. rewrite !length_map in *. exact H.
  - rewrite apply_mask_map.
    apply Forall2_filter; [|apply assign_aligned; exact H].
    intros x y C. cbv beta in C. unfold not_removed.
    destruct (is_target df x).
    + destruct C as (r & _ & _ & ->). destruct x as [l rx]; destruct rx.
      reflexivity.
    + subst y; reflexivity.
Qed.

Lemma update_reactions_aligned_witness :
  exists out,
    update_reactions pair = Ok out
    /\ Forall2
         (fun e e' =>
            if is_target pair e
            then exists r, In r (main_reactions pair)
                           /\ reaction_guid (row r) = Some (guid (row e))
                           /\ e' = (label e,
                                    set_reaction_type (reaction_type (row r)) (row e))
            else e' = e)
         (List.filter (not_removed pair) pair) out.
Proof.
  apply update_reactions_aligned. reflexivity.
Defined.

(** ** Text Recoverer *)

Lemma lstrip_spaces (x : str) :
  exists p, x = p ++ lstrip x /\ Forall (fun c => isspace c = true) p.
Proof.
  induction x as [|c x (p & E & F)]; [exists []; split; [reflexivity|constructor]|].
  cbn [lstrip]. destruct (isspace c) eqn:S.
  - exists (c :: p); split; [simpl; f_equal; exact E | constructor; assumption].
  - exists []; split; [reflexivity | constructor].
Qed.

Lemma rstrip_spaces (x : str) :
  exists q, x = rstrip x ++ q /\ Forall (fun c => isspace c = true) q.
Proof.
  unfold rstrip. destruct (lstrip_spaces (rev x)) as (p & E & F).
  exists (rev p); split.
  - rewrite <- rev_app_distr, <- E, rev_involutive; reflexivity.
  - apply Forall_rev; exact F.
Qed.

(** [strip] takes whitespace away, and only whitespace, from the two ends:
    the string is whitespace, then the result, then whitespace, and the
    result has no whitespace at either end. *)
Theorem strip_only_whitespace (x : str) :
  exists p q,
    x = p ++ strip x ++ q
    /\ Forall (fun c => isspace c = true) p
    /\ Forall (fun c => isspace c = true) q
    /\ trimmed (strip x) = true.
Proof.
  destruct (lstrip_spaces x) as (p & E & F).
  destruct (rstrip_spaces (lstrip x)) as (q & E' & F').
  exists p, q. unfold strip. repeat split; try assumption.
  - rewrite <- E'; exact E.
  - apply strip_trimmed.
Qed.

Lemma lstrip_fixed (x : str) : no_leading_space x = true -> lstrip x = x.
Proof.
  destruct x as [|c x]; [reflexivity|]. simpl.
  intros H; apply negb_true_iff in H; rewrite H; reflexivity.
Qed.

Lemma strip_fixed (x : str) : trimmed x = true -> strip x = x.
Proof.
  unfold trimmed, strip, rstrip. intros H.
  apply andb_true_iff in H as [H1 H2].
  rewrite (lstrip_fixed x H1), (lstrip_fixed (rev x) H2). apply rev_involutive.
Qed.

(** A text that is not empty decides alone: the payload is not looked at,
    the text is stripped, and a text without whitespace at its ends is kept
    as it is. *)
Theorem parse_body_prefers_text (decode : list byte -> str) (r : Row) (x : str) :
  text r = Some x -> x <> [] ->
  parse_body decode r = Some (strip x)
  /\ (trimmed x = true -> parse_body decode r = Some x).
Proof.
  intros T N. unfold parse_body. rewrite T.
  destruct x as [|c x]; [contradiction|]. cbn [truthy].
  split; [reflexivity|]. intros H; rewrite (strip_fixed _ H); reflexivity.
Qed.

Lemma parse_body_prefers_text_witness :
  parse_body (fun _ => []) pair_message = Some (s "hi").
Proof.
  apply (proj2 (parse_body_prefers_text (fun _ => []) pair_message (s "hi")
                  eq_refl ltac:(discriminate))).
  reflexivity.
Defined.

Lemma starts_with_prefix (sub r : str) : starts_with sub (sub ++ r) = true.
Proof.
  induction sub as [|a sub IH]; [reflexivity|]. simpl.
  rewrite N.eqb_refl; exact IH.
Qed.


Lemma occurrence_contains (sub p r : str) :
  contains sub (p ++ sub ++ r) = true.
Proof.
  induction p as [|c p IH].
  - destruct (sub ++ r) eqn:E; cbn [app contains]; rewrite <- E;
      rewrite starts_with_prefix; reflexivity.
  - cbn [app contains]. rewrite IH. apply orb_true_r.
Qed.

(** [sub in x] holds exactly when [sub] occurs in [x]. *)
Theorem contains_occurrence (sub x : str) :
  contains sub x = true <-> exists p r, x = p ++ sub ++ r.
Proof.
  split.
  - intros H. apply contains_split_first in H.
    destruct (split_first sub x) as [[p r]|] eqn:E; [|contradiction].
    exists p, r; apply split_first_app; exact E.
  - intros (p & r & ->). apply occurrence_contains.
Qed.


Lemma split_unfold (sep x p r : str) :
  sep <> [] -> split_first sep x = Some (p, r) ->
  split sep x = p :: split sep r.
Proof.
  intros Hsep E. unfold split.
  pose proof (split_first_app sep x p r E) as A.
  assert (L : (List.length r < List.length x)%nat).
  { rewrite A, !length_app. destruct sep; [contradiction | simpl; lia]. }
  destruct (List.length x) as [|n] eqn:Lx; [lia|].
  cbn [split_fuel]. rewrite E. f_equal.
  apply split_fuel_enough; [exact Hsep | lia].
Qed.

Lemma split_absent (sep x : str) :
  split_first sep x = None -> split sep x = [x].
Proof.
  intros E. unfold split. destruct (List.length x); [reflexivity|].
  cbn [split_fuel]. rewrite E. reflexivity.
Qed.

Lemma split_second (sep x : str) :
  sep <> [] -> exists d, x = nth 0 (split sep x) [] ++ d.
Proof.
  intros Hsep. destruct (split_first sep x) as [[p r]|] eqn:E.
  - rewrite (split_unfold sep x p r Hsep E). cbn [nth].
    exists (sep ++ r). apply split_first_app; exact E.
  - rewrite (split_absent sep x E). exists []. cbn [nth]. symmetry; apply app_nil_r.
Qed.



Lemma split_head (sep x : str) :
  sep <> [] -> contains sep x = true ->
  exists r, x = nth 0 (split sep x) [] ++ sep ++ r.
Proof.
  intros Hsep H. apply contains_split_first in H.
  destruct (split_first sep x) as [[p r]|] eqn:E; [|contradiction].
  rewrite (split_unfold sep x p r Hsep E). cbn [nth].
  exists r; apply split_first_app; exact E.
Qed.

Lemma split_between (sep x : str) :
  sep <> [] -> contains sep x = true ->
  exists a d, x = a ++ sep ++ nth 1 (split sep x) [] ++ d.
Proof.
  intros Hsep H. apply contains_split_first in H.
  destruct (split_first sep x) as [[p r]|] eqn:E; [|contradiction].
  rewrite (split_unfold sep x p r Hsep E). cbn [nth].
  destruct (split_second sep r Hsep) as [d D].
  exists p, d. rewrite <- D. apply split_first_app; exact E.
Qed.

(** The payload as the recovery needs it: the three markers in the order
    NSString, NSDictionary, NSNumber, with [c] between the first two. *)
Lemma recovered_between_markers (decode : list byte -> str) (r : Row) (x : str) :
  truthy (text r) = None ->
  parse_body decode r = Some x ->
  exists a c d e,
    body_str decode (body r)
    = a ++ NSString ++ c ++ NSDictionary ++ d ++ NSNumber ++ e
    /\ x = strip (slice_6_m12 c).
Proof.
  intros Tr H. unfold parse_body in H. rewrite Tr in H.
  set (b0 := body_str decode (body r)) in *.
  destruct (contains NSNumber b0) eqn:C0; [|discriminate].
  set (b1 := nth 0 (split NSNumber b0) []) in *.
  destruct (contains NSString b1) eqn:C1; [|discriminate].
  set (b2 := nth 1 (split NSString b1) []) in *.
  destruct (contains NSDictionary b2) eqn:C2; [|discriminate].
  injection H as <-.
  destruct (split_head NSNumber b0 ltac:(discriminate) C0) as [e E0].
  destruct (split_between NSString b1 ltac:(discriminate) C1) as (a & d1 & E1).
  destruct (split_head NSDictionary b2 ltac:(discriminate) C2) as [d2 E2].
  fold b1 in E0. fold b2 in E1.
  exists a, (nth 0 (split NSDictionary b2) []), (d2 ++ d1), e.
  split; [|reflexivity].
  rewrite E0. rewrite E1 at 1. rewrite E2 at 1.
  rewrite <- !app_assoc. reflexivity.
Qed.

(** With no text in the row: when [parse_body] recovers a text from the
    payload, the payload has the three markers in the order NSString,
    NSDictionary, NSNumber, and the text is the stripped slice of what
    stands between the first two; a payload without the markers in that
    order, the missing payload included, gives no text and no error. *)
Theorem parse_body_recovered_between_markers
        (decode : list byte -> str) (r : Row) :
  text r = None \/ text r = Some [] ->
  (forall x,
      parse_body decode r = Some x ->
      exists a c d e,
        body_str decode (body r)
        = a ++ NSString ++ c ++ NSDictionary ++ d ++ NSNumber ++ e
        /\ x = strip (slice_6_m12 c))
  /\ ((forall a c d e,
         body_str decode (body r)
         <> a ++ NSString ++ c ++ NSDictionary ++ d ++ NSNumber ++ e) ->
      parse_body decode r = None).
Proof.
  intros T.
  assert (Tr : truthy (text r) = None) by (destruct T as [-> | ->]; reflexivity).
  split.
  - intros x H. exact (recovered_between_markers decode r x Tr H).
  - intros N. destruct (parse_body decode r) as [x|] eqn:P; [|reflexivity].
    destruct (recovered_between_markers decode r x Tr P) as (a & c & d & e & E & _).
    exfalso; exact (N a c d e E).
Qed.

Lemma parse_body_recovered_between_markers_witness :
  (exists a c d e,
      s "..NSString<<<<<<Hello world>>>>>>>>>>>>NSDictionary..NSNumber.."
      = a ++ NSString ++ c ++ NSDictionary ++ d ++ NSNumber ++ e
      /\ s "Hello world" = strip (slice_6_m12 c))
  /\ parse_body (fun _ => [])
                (mkRow 1 (s "A") None (s "2023-05-01 10:00:00") BNone (Some [])
                       0 0 None 0)
     = None.
Proof.
  split.
  - apply (proj1 (parse_body_recovered_between_markers
                    (fun _ => [])
                    (mkRow 1 (s "A") None (s "2023-05-01 10:00:00")
                           (BStr (s "..NSString<<<<<<Hello world>>>>>>>>>>>>NSDictionary..NSNumber.."))
                           None 0 0 None 0)
                    (or_introl eq_refl))).
    reflexivity.
  - apply (proj2 (parse_body_recovered_between_markers
                    (fun _ => [])
                    (mkRow 1 (s "A") None (s "2023-05-01 10:00:00") BNone (Some [])
                           0 0 None 0)
                    (or_intror eq_refl))).
    intros a c d e E. cbn [body_str body] in E.
    assert (C : contains NSNumber (s "None") = true).
    { rewrite E.
      replace (a ++ NSString ++ c ++ NSDictionary ++ d ++ NSNumber ++ e)
        with ((a ++ NSString ++ c ++ NSDictionary ++ d) ++ NSNumber ++ e)
        by (rewrite <- !app_assoc; reflexivity).
      apply occurrence_contains. }
    discriminate C.
Defined.

(** [x[6:-12]] is what is left without the first six and the last twelve
    characters, and the empty string when [x] has no more than eighteen. *)
Theorem slice_6_m12_bounds (h m t x : str) :
  (List.length h = 6%nat -> List.length t = 12%nat ->
   slice_6_m12 (h ++ m ++ t) = m)
  /\ ((List.length x <= 18)%nat -> slice_6_m12 x = []).
Proof.
  unfold slice_6_m12. split.
  - intros Hh Ht.
    assert (S : skipn 6 (h ++ m ++ t) = m ++ t).
    { rewrite <- Hh, skipn_app, skipn_all, Nat.sub_diag. reflexivity. }
    rewrite S, !length_app, Hh, Ht.
    replace (6 + (List.length m + 12) - 12 - 6)%nat with (List.length m) by lia.
    rewrite firstn_app, Nat.sub_diag, firstn_all. cbn [firstn].
    apply app_nil_r.
  - intros H. replace (List.length x - 12 - 6)%nat with 0%nat by lia.
    reflexivity.
Qed.

Lemma slice_6_m12_bounds_witness :
  slice_6_m12 (s "<<<<<<" ++ s "Hello world" ++ s ">>>>>>>>>>>>") = s "Hello world"
  /\ slice_6_m12 (s "<<<<<<>>>>>>>>>>>>") = [].
Proof.
  split.
  - apply (slice_6_m12_bounds (s "<<<<<<") (s "Hello world") (s ">>>>>>>>>>>>") []);
      reflexivity.
  - apply (slice_6_m12_bounds [] [] [] (s "<<<<<<>>>>>>>>>>>>")). simpl; lia.
Defined.

(** ** Thread Selector *)

Lemma get_thread_messages_table_order_witness :
  get_thread_messages t_guid t_thread_guid
    ([(0, text_row (s "T") None)]
       ++ [(1, text_row (s "R1") (Some (s "T")));
           (2, text_row (s "X") None);
           (3, text_row (s "R2") (Some (s "T")))])
    (s "T")
  = [ (0, text_row (s "T") None);
      (1, text_row (s "R1") (Some (s "T")));
      (3, text_row (s "R2") (Some (s "T"))) ].
Proof.
  rewrite (get_thread_messages_table_order TextRow t_guid t_thread_guid (s "T")).
  - reflexivity.
  - intros e [<-|[]]; reflexivity.
  - intros e [<-|[<-|[<-|[]]]]; reflexivity.
Defined.

(** ** The pipeline *)

Lemma parse_body_trimmed (decode : list byte -> str) (r : Row) :
  match parse_body decode r with
  | Some x => trimmed x = true
  | None => True
  end.
Proof.
  unfold parse_body. destruct (truthy (text r)); [apply strip_trimmed|].
  repeat match goal with
         | |- context [if ?c then _ else _] => destruct c
         end; try exact I.
  apply strip_trimmed.
Qed.

Section LoaderProperties.

Variable decode : list byte -> str.
Variable DateRow : Type.
Variable update_dates : Frame TextRow -> Result (Frame DateRow).

(** On a query result whose guids are all different, two main reactions to
    one message end the run with ValueError, whatever the dates are. *)
Theorem prepare_raises_on_shared_target (res : Frame Row) :
  NoDup (col guid res) ->
  ~ NoDup (col reaction_guid (main_reactions res)) ->
  prepare decode update_dates res = Raise ValueError.
Proof.
  intros ND N. unfold prepare.
  assert (D : drop_duplicates res = res).
  { unfold drop_duplicates. rewrite duplicate_guids_eq.
    rewrite (dup_labels_fresh res [] ND); [apply drop_nil|].
    intros g _ []. }
  rewrite D, (shared_target_raises res ND N). reflexivity.
Qed.

(** The run ends in one of three ways: [update_reactions] raises
    ValueError; or it returns a frame without rows, and [update_text] raises
    ValueError; or it returns a frame with rows, and [update_dates] is
    called on the result of [update_text], in which no row has a
    [reaction_guid] and every text is absent or without whitespace at its
    ends, and what [update_dates] gives is the result of the run. *)
Theorem prepare_reaches_dates_clean (res : Frame Row) :
  (update_reactions (drop_duplicates res) = Raise ValueError
   /\ prepare decode update_dates res = Raise ValueError)
  \/ (update_reactions (drop_duplicates res) = Ok []
      /\ prepare decode update_dates res = Raise ValueError)
  \/ (exists df out,
         update_reactions (drop_duplicates res) = Ok df
         /\ df <> []
         /\ update_text decode df = Ok out
         /\ prepare decode update_dates res = update_dates out
         /\ Forall (fun e => t_reaction_guid (row e) = None
                             /\ text_trimmed_or_absent e)
                   out).
Proof.
  unfold prepare.
  destruct (update_reactions (drop_duplicates res)) as [df|[]] eqn:U.
  - destruct df as [|e0 df0] eqn:D.
    + right; left. split; reflexivity.
    + right; right. rewrite <- D in *.
      exists df, (List.map (with_parsed_text decode) df).
      assert (T : update_text decode df
                  = Ok (List.map (with_parsed_text decode) df))
        by (rewrite D; reflexivity).
      rewrite T. repeat split; [rewrite D; discriminate|].
      apply Forall_map, Forall_forall. intros e He.
      unfold with_parsed_text; cbn [row snd t_reaction_guid]. split.
      * exact (no_candidate_left (drop_duplicates res) df U e He).
      * unfold text_trimmed_or_absent. cbn [row snd t_text].
        apply parse_body_trimmed.
  - left. split; reflexivity.
Qed.

End LoaderProperties.

Lemma prepare_raises_on_shared_target_witness :
  prepare (fun _ => []) (fun df : Frame TextRow => Ok df) twice_reacted
  = Raise ValueError.
Proof.
  apply prepare_raises_on_shared_target.
  - simpl. repeat constructor; simpl; intuition discriminate.
  - intros N. vm_compute in N. inversion N as [|x l Hx _]; subst.
    apply Hx; left; reflexivity.
Defined.

(** *** No stage reorders the rows *)


Lemma sorted_filter {A B} (le : B -> B -> Prop) (f : A -> B) (P : A -> bool)
      (l : list A) :
  StronglySorted le (List.map f l) ->
  StronglySorted le (List.map f (List.filter P l)).
Proof.
  induction l as [|x l IH]; intros H; [constructor|].
  cbn [List.map] in H. apply StronglySorted_inv in H as [H Hx].
  cbn [List.filter]. destruct (P x); [|exact (IH H)].
  cbn [List.map]. constructor; [exact (IH H)|].
  apply Forall_forall. intros y Hy. apply in_map_iff in Hy as (z & <- & Hz).
  apply filter_In in Hz as [Hz _].
  rewrite Forall_forall in Hx. apply Hx, in_map, Hz.
Qed.

Lemma besides_reaction_type_dates (a b : Frame Row) :
  List.map besides_reaction_type a = List.map besides_reaction_type b ->
  col date a = col date b.
Proof.
  intros H. apply (f_equal (List.map (fun e : Z * Row => date (row e)))) in H.
  rewrite !map_map in H. unfold col.
  rewrite (map_ext (fun e => date (row e))
                   (fun e => date (row (besides_reaction_type e))))
    by (intros [l r]; destruct r; reflexivity).
  rewrite H. apply map_ext. intros [l r]; destruct r; reflexivity.
Qed.

Section DateOrder.

Variable decode : list byte -> str.
Variable le : str -> str -> Prop.

(** When the query result is in the order of its dates, so is the frame the
    first three stages hand to [update_dates]: rows are dropped, none is
    moved. *)
Theorem stages_keep_date_order (res df : Frame Row) (out : Frame TextRow) :
  StronglySorted le (col date res) ->
  update_reactions (drop_duplicates res) = Ok df ->
  update_text decode df = Ok out ->
  StronglySorted le (col t_date out).
Proof.
  intros S U T.
  assert (E : col t_date out = col date df).
  { assert (K : forall l : Frame Row,
               col t_date (List.map (with_parsed_text decode) l) = col date l).
    { intros l. unfold col. rewrite map_map. reflexivity. }
    destruct df as [|e0 df0]; [discriminate|]. injection T as <-.
    exact (K (e0 :: df0)). }
  rewrite E. apply update_reactions_ok_inv in U as [_ ->].
  rewrite (besides_reaction_type_dates _
             (List.filter (not_removed (drop_duplicates res)) (drop_duplicates res))).
  - unfold col. apply sorted_filter. unfold drop_duplicates, drop.
    apply sorted_filter. exact S.
  - apply (assign_keeps_rows
             (fun g => negb (existsb (str_eqb g)
                               (col guid (List.filter is_reaction
                                                      (drop_duplicates res)))))).
Qed.

End DateOrder.

Lemma stages_keep_date_order_witness :
  StronglySorted (fun a b => str_leb a b = true)
                 (col t_date
                      [ (0, mkTextRow 1 (s "A") None (s "2023-05-01 10:00:00")
                                      (Some (s "hi")) 1 0 None 2001);
                        (1, mkTextRow 2 (s "B") None (s "2023-05-01 10:01:00")
                                      (Some (s "yo")) 1 0 None 2000) ]).
Proof.
  apply (stages_keep_date_order (fun _ => []) (fun a b => str_leb a b = true)
                                crossed (List.filter (not_removed crossed)
                                           (assign_reaction_type
                                              (apply_mask crossed)
                                              (col reaction_type (main_reactions crossed))
                                              crossed))).
  - unfold crossed, col. cbn [List.map]. repeat constructor.
  - reflexivity.
  - reflexivity.
Defined.
